(** * Flight-Management-API: a shallow embedding of [app/utils.py],
    [app/models.py] and [app/routes.py], and the properties of the
    specification checked against it.

    Modelling conventions.

    - A [datetime] is a naive timestamp: the number of microseconds on the
      proleptic Gregorian time line, an integer.  Time-zone aware values are
      outside the model.
    - Python floats are idealised as exact rationals ([Q]); a sum is taken in
      the order in which the code accumulates it.
    - A Python [str] is a [string] over the ASCII repertoire.
    - A Python [dict] is an association list in insertion order.
    - A table is the list of its rows in row order.
    - [db.session] is a unit of work: reads and writes go to the staged
      image of the database, [db.session.commit()] makes the staged image the
      stored one, and a session that ends without a commit leaves the stored
      image alone.  Every request has a session of its own, which the
      extension drops when the request ends.
    - The store assigns keys and checks nothing else: the foreign key of
      [Flight.aircraft_id] is not enforced (as with SQLite, the store of the
      tests), and the unique index on [serial_number] never fires, the
      handlers checking the serial number before they write.
    - A JSON body is a record with one optional field per key the handlers
      look at; the values have the type of the column they are written to. *)

From Stdlib Require Import ZArith QArith Qround List String Ascii Bool Lia.
From Stdlib Require Import DecimalString Permutation Lqa.
Import ListNotations.

Local Open Scope string_scope.
Local Open Scope Z_scope.
Local Open Scope list_scope.

(* ================================================================= *)
(** ** Python values used by the code *)

(** Naive [datetime.datetime]: microseconds. A [timedelta] is a difference
    of two of them. *)
Definition datetime := Z.
Definition timedelta := Z.

(** [timedelta.total_seconds()]. *)
Definition total_seconds (td : timedelta) : Q := inject_Z td / 1000000.

(** [str.isalpha] on ASCII text: non-empty and letters only. *)
Definition is_letter (c : ascii) : bool :=
  let n := Z.of_N (N_of_ascii c) in
  ((65 <=? n) && (n <=? 90)) || ((97 <=? n) && (n <=? 122)).

Definition isalpha (s : string) : bool :=
  match s with
  | EmptyString => false
  | _ => forallb is_letter (list_ascii_of_string s)
  end.

(** [str.upper] on ASCII text. *)
Definition upper_char (c : ascii) : ascii :=
  let n := N_of_ascii c in
  if ((97 <=? n) && (n <=? 122))%N then ascii_of_N (n - 32) else c.

Fixpoint upper (s : string) : string :=
  match s with
  | EmptyString => EmptyString
  | String c r => String (upper_char c) (upper r)
  end.

(** [sep.join(items)]. *)
Fixpoint join (sep : string) (items : list string) : string :=
  match items with
  | [] => EmptyString
  | [x] => x
  | x :: r => (x ++ sep ++ join sep r)%string
  end.

(** [str(n)] for an [int]. *)
Definition str_of_int (n : Z) : string := NilZero.string_of_int (Z.to_int n).

(** [round(x, 2)]: to the nearest multiple of 0.01, a tie going to the
    even neighbour. *)
Definition round_half_even (x : Q) : Z :=
  let f := Qfloor x in
  match Qcompare (x - inject_Z f) (1 # 2) with
  | Lt => f
  | Gt => f + 1
  | Eq => if Z.even f then f else f + 1
  end.

Definition round2 (x : Q) : Q := inject_Z (round_half_even (x * 100)) / 100.

(** *** Dictionaries in insertion order *)

Section Dict.
Context {K V : Type} (eqb : K -> K -> bool).

Definition dict := list (K * V).

(** [d.get(k)] *)
Fixpoint dict_get (k : K) (d : dict) : option V :=
  match d with
  | [] => None
  | (k', v) :: r => if eqb k k' then Some v else dict_get k r
  end.

(** [k in d] *)
Definition dict_mem (k : K) (d : dict) : bool :=
  match dict_get k d with Some _ => true | None => false end.

(** [d[k] = f(d[k])] for a key that is present; the entry keeps its place. *)
Fixpoint dict_modify (k : K) (f : V -> V) (d : dict) : dict :=
  match d with
  | [] => []
  | (k', v) :: r =>
      if eqb k k' then (k', f v) :: r else (k', v) :: dict_modify k f r
  end.

(** [d[k] = v]: a present key keeps its place, a new key goes last. *)
Definition dict_set (k : K) (v : V) (d : dict) : dict :=
  if dict_mem k d then dict_modify k (fun _ => v) d else d ++ [(k, v)].

Definition dict_keys (d : dict) : list K := map fst d.
End Dict.

(* ================================================================= *)
(** ** app/utils.py *)

(** [validate_icao_code]: the [isinstance] test is decided by the type. *)
Definition validate_icao_code (code : string) : bool :=
  if (String.length code =? 0)%nat then false
  else if negb (String.length code =? 4)%nat || negb (isalpha code) then false
  else true.

(** [datetime.fromisoformat], the library function [parse_datetime] wraps.
    Every result below holds for any such function. *)
Class IsoFormat := fromisoformat : string -> option datetime.

(** [parse_datetime]: [None] where [fromisoformat] raises. *)
Definition parse_datetime `{IsoFormat} (dt_str : string) : option datetime :=
  fromisoformat dt_str.

(* ================================================================= *)
(** ** app/models.py *)

Module Aircraft.
Record t := make {
  id : Z;
  serial_number : string;
  manufacturer : string
}.

Definition set_serial_number (v : string) (a : t) : t :=
  make (id a) v (manufacturer a).
Definition set_manufacturer (v : string) (a : t) : t :=
  make (id a) (serial_number a) v.
End Aircraft.

Module Flight.
Record t := make {
  id : Z;
  departure_airport : string;
  arrival_airport : string;
  departure_time : datetime;
  arrival_time : datetime;
  aircraft_id : option Z
}.

Definition set_departure_airport (v : string) (f : t) : t :=
  make (id f) v (arrival_airport f) (departure_time f) (arrival_time f)
       (aircraft_id f).
Definition set_arrival_airport (v : string) (f : t) : t :=
  make (id f) (departure_airport f) v (departure_time f) (arrival_time f)
       (aircraft_id f).
Definition set_departure_time (v : datetime) (f : t) : t :=
  make (id f) (departure_airport f) (arrival_airport f) v (arrival_time f)
       (aircraft_id f).
Definition set_arrival_time (v : datetime) (f : t) : t :=
  make (id f) (departure_airport f) (arrival_airport f) (departure_time f) v
       (aircraft_id f).
Definition set_aircraft_id (v : option Z) (f : t) : t :=
  make (id f) (departure_airport f) (arrival_airport f) (departure_time f)
       (arrival_time f) v.
End Flight.

(** The two tables. *)
Record Db := mkDb {
  aircraft_table : list Aircraft.t;
  flight_table : list Flight.t
}.

(** [Aircraft.query.get(id)] *)
Definition aircraft_get (id : Z) (d : Db) : option Aircraft.t :=
  find (fun a => Aircraft.id a =? id) (aircraft_table d).

(** [Aircraft.query.filter_by(serial_number=s).first()] *)
Definition aircraft_by_serial (s : string) (d : Db) : option Aircraft.t :=
  find (fun a => String.eqb (Aircraft.serial_number a) s) (aircraft_table d).

(** [Flight.query.get(id)] *)
Definition flight_get (id : Z) (d : Db) : option Flight.t :=
  find (fun f => Flight.id f =? id) (flight_table d).

(** [Flight.query.filter_by(aircraft_id=id).first()] *)
Definition flight_by_aircraft (id : Z) (d : Db) : option Flight.t :=
  find (fun f => match Flight.aircraft_id f with
                 | Some a => a =? id
                 | None => false
                 end) (flight_table d).

(** The key given to a new row: one more than the largest key in use. *)
Definition next_id (ids : list Z) : Z := 1 + fold_right Z.max 0 ids.

Definition insert_aircraft (serial manuf : string) (d : Db) : Aircraft.t * Db :=
  let a := Aircraft.make (next_id (map Aircraft.id (aircraft_table d)))
                         serial manuf in
  (a, mkDb (aircraft_table d ++ [a]) (flight_table d)).

Definition insert_flight (dep arr : string) (dt at_ : datetime)
    (aid : option Z) (d : Db) : Flight.t * Db :=
  let f := Flight.make (next_id (map Flight.id (flight_table d)))
                       dep arr dt at_ aid in
  (f, mkDb (aircraft_table d) (flight_table d ++ [f])).

(** Writing back an object the session tracks. *)
Definition write_aircraft (a : Aircraft.t) (d : Db) : Db :=
  mkDb (map (fun r => if Aircraft.id r =? Aircraft.id a then a else r)
            (aircraft_table d))
       (flight_table d).

Definition write_flight (f : Flight.t) (d : Db) : Db :=
  mkDb (aircraft_table d)
       (map (fun r => if Flight.id r =? Flight.id f then f else r)
            (flight_table d)).

Definition remove_aircraft (a : Aircraft.t) (d : Db) : Db :=
  mkDb (filter (fun r => negb (Aircraft.id r =? Aircraft.id a))
               (aircraft_table d))
       (flight_table d).

Definition remove_flight (f : Flight.t) (d : Db) : Db :=
  mkDb (aircraft_table d)
       (filter (fun r => negb (Flight.id r =? Flight.id f)) (flight_table d)).

(** [Flight.to_dict]; [self.aircraft] follows [aircraft_id]. *)
Module FlightDict.
Record t := make {
  id : Z;
  departure_airport : string;
  arrival_airport : string;
  departure_time : datetime;
  arrival_time : datetime;
  aircraft_id : option Z;
  aircraft_serial_number : option string
}.
End FlightDict.

Definition flight_to_dict (d : Db) (f : Flight.t) : FlightDict.t :=
  FlightDict.make (Flight.id f) (Flight.departure_airport f)
    (Flight.arrival_airport f) (Flight.departure_time f)
    (Flight.arrival_time f) (Flight.aircraft_id f)
    (match Flight.aircraft_id f with
     | Some a => option_map Aircraft.serial_number (aircraft_get a d)
     | None => None
     end).

(* ================================================================= *)
(** ** Responses *)

Module AircraftMinutes.
Record t := make {
  aircraft_id : Z;
  serial_number : string;
  in_flight_minutes : Q
}.
End AircraftMinutes.

Module AirportData.
Record t := make {
  departure_airport : string;
  flight_count : Z;
  aircraft_flight_times : list AircraftMinutes.t;
  average_flight_time : Q
}.
End AirportData.

Module Meta.
Record t := make {
  start_time : datetime;
  end_time : datetime;
  total_airports : Z;
  total_flights : Z
}.
End Meta.

Inductive Payload :=
| NoData
| AircraftData (a : Aircraft.t)
| AircraftList (l : list Aircraft.t)
| FlightData (f : FlightDict.t)
| FlightList (l : list FlightDict.t)
| ReportData (data : list AirportData.t) (meta : Meta.t).

(** [jsonify({"status": "success", ...}), code],
    [jsonify({"status": "error", "message": m}), code], and the response of
    an exception that leaves the handler ([abort(404)], an uncaught error). *)
Inductive Response :=
| Success (code : Z) (message : option string) (data : Payload)
| Error (code : Z) (message : string)
| Abort (code : Z).

Definition status_code (r : Response) : Z :=
  match r with
  | Success c _ _ | Error c _ | Abort c => c
  end.

Definition is_success (r : Response) : bool :=
  match r with Success _ _ _ => true | _ => false end.

(* ================================================================= *)
(** ** The session and the handlers' control flow *)

Record Session := mkSession { stored : Db; staged : Db }.

(** A session opened on a database. *)
Definition begin (d : Db) : Session := mkSession d d.

(** A step of a handler either goes on with a value or returns a response. *)
Inductive Flow (A : Type) :=
| Next (a : A)
| Return (r : Response).
Arguments Next {A} a.
Arguments Return {A} r.

Definition View (A : Type) := Session -> Flow A * Session.

Definition pure {A} (a : A) : View A := fun s => (Next a, s).

Definition bind {A B} (m : View A) (k : A -> View B) : View B :=
  fun s => match m s with
           | (Next a, s') => k a s'
           | (Return r, s') => (Return r, s')
           end.

Notation "x <- m ;; k" := (bind m (fun x => k))
  (at level 61, m at next level, right associativity).
Notation "m ;;; k" := (bind m (fun _ => k))
  (at level 61, right associativity).

(** [return response] *)
Definition respond {A} (r : Response) : View A := fun s => (Return r, s).

(** A read through the session. *)
Definition query {A} (f : Db -> A) : View A := fun s => (Next (f (staged s)), s).

(** A write the session stages. *)
Definition stage (f : Db -> Db) : View unit :=
  fun s => (Next tt, mkSession (stored s) (f (staged s))).

(** [db.session.commit()] *)
Definition commit : View unit :=
  fun s => (Next tt, mkSession (staged s) (staged s)).

(** [Model.query.get_or_404(id)] *)
Definition get_or_404 {A} (f : Db -> option A) : View A :=
  o <- query f ;;
  match o with
  | Some a => pure a
  | None => respond (Abort 404)
  end.

(** [data[key]]: a missing key raises [KeyError]. *)
Definition getitem {A} (o : option A) : View A :=
  match o with
  | Some v => pure v
  | None => respond (Abort 500)
  end.

(** [if cond: return response] *)
Definition return_if (cond : bool) (r : Response) : View unit :=
  if cond then respond r else pure tt.

(** The response of a view function and the session it leaves. *)
Definition run (v : View Response) (s : Session) : Response * Session :=
  match v s with
  | (Next r, s') => (r, s')
  | (Return r, s') => (r, s')
  end.

(** [db.session.add(Aircraft(...))]; the key is assigned with the insert. *)
Definition add_aircraft (serial manuf : string) : View Aircraft.t :=
  fun s => let (a, d) := insert_aircraft serial manuf (staged s) in
           (Next a, mkSession (stored s) d).

(** [db.session.add(Flight(...))] *)
Definition add_flight (dep arr : string) (dt at_ : datetime)
    (aid : option Z) : View Flight.t :=
  fun s => let (f, d) := insert_flight dep arr dt at_ aid (staged s) in
           (Next f, mkSession (stored s) d).

(** An attribute assignment on a tracked object: the object changes and the
    session stages the row. *)
Definition setattr_aircraft (a : Aircraft.t) : View Aircraft.t :=
  stage (write_aircraft a) ;;; pure a.

Definition setattr_flight (f : Flight.t) : View Flight.t :=
  stage (write_flight f) ;;; pure f.

(* ================================================================= *)
(** ** Request data *)

Module AircraftBody.
Record t := make {
  serial_number : option string;
  manufacturer : option string
}.
End AircraftBody.

(** [aircraft_id] is absent, [null] or an integer. *)
Module FlightBody.
Record t := make {
  departure_airport : option string;
  arrival_airport : option string;
  departure_time : option string;
  arrival_time : option string;
  aircraft_id : option (option Z)
}.
End FlightBody.

(** The query string of [GET /flights]. *)
Module FlightArgs.
Record t := make {
  departure_airport : option string;
  arrival_airport : option string;
  departure_after : option string;
  departure_before : option string
}.
End FlightArgs.

(** The query string of [GET /reports/flight-stats]. *)
Module StatsArgs.
Record t := make {
  start_time : option string;
  end_time : option string
}.
End StatsArgs.

Definition is_some {A} (o : option A) : bool :=
  match o with Some _ => true | None => false end.

(** Truth value of an optional string: [None] and the empty string are
    false. *)
Definition str_truthy (o : option string) : bool :=
  match o with
  | Some EmptyString | None => false
  | Some _ => true
  end.

(** Truth value of an optional integer: [None] and [0] are false. *)
Definition int_truthy (o : option Z) : bool :=
  match o with
  | Some n => negb (n =? 0)
  | None => false
  end.

(* ================================================================= *)
(** ** app/utils.py, continued *)

Definition calculate_inflight_time (flight : Flight.t)
    (start_time end_time : datetime) : Q :=
  let flight_start := Z.max (Flight.departure_time flight) start_time in
  let flight_end := Z.min (Flight.arrival_time flight) end_time in
  if flight_start <? flight_end
  then (total_seconds (flight_end - flight_start)%Z / 60)%Q
  else 0%Q.

(* ================================================================= *)
(** ** app/routes.py: aircraft endpoints *)

(** [GET /aircraft] *)
Definition get_aircraft : View Response :=
  aircraft <- query aircraft_table ;;
  pure (Success 200 None (AircraftList aircraft)).

(** [GET /aircraft/<id>] *)
Definition get_aircraft_by_id (aircraft_id : Z) : View Response :=
  aircraft <- get_or_404 (aircraft_get aircraft_id) ;;
  pure (Success 200 None (AircraftData aircraft)).

(** [POST /aircraft] *)
Definition create_aircraft (data : AircraftBody.t) : View Response :=
  return_if (negb (is_some (AircraftBody.serial_number data))
             || negb (is_some (AircraftBody.manufacturer data)))
    (Error 400 "Missing required fields: serial_number and manufacturer") ;;;
  serial <- getitem (AircraftBody.serial_number data) ;;
  existing <- query (aircraft_by_serial serial) ;;
  return_if (is_some existing)
    (Error 409 ("Aircraft with serial number '" ++ serial
                ++ "' already exists")%string) ;;;
  manuf <- getitem (AircraftBody.manufacturer data) ;;
  aircraft <- add_aircraft serial manuf ;;
  commit ;;;
  pure (Success 201 (Some "Aircraft created successfully")
                (AircraftData aircraft)).

(** [PUT /aircraft/<id>] *)
Definition update_aircraft (aircraft_id : Z) (data : AircraftBody.t)
    : View Response :=
  aircraft <- get_or_404 (aircraft_get aircraft_id) ;;
  aircraft <-
    match AircraftBody.serial_number data with
    | Some serial =>
        existing <- query (aircraft_by_serial serial) ;;
        return_if (match existing with
                   | Some e => negb (Aircraft.id e =? aircraft_id)
                   | None => false
                   end)
          (Error 409 ("Aircraft with serial number '" ++ serial
                      ++ "' already exists")%string) ;;;
        setattr_aircraft (Aircraft.set_serial_number serial aircraft)
    | None => pure aircraft
    end ;;
  aircraft <-
    match AircraftBody.manufacturer data with
    | Some manuf => setattr_aircraft (Aircraft.set_manufacturer manuf aircraft)
    | None => pure aircraft
    end ;;
  commit ;;;
  pure (Success 200 (Some "Aircraft updated successfully")
                (AircraftData aircraft)).

(** [DELETE /aircraft/<id>] *)
Definition delete_aircraft (aircraft_id : Z) : View Response :=
  aircraft <- get_or_404 (aircraft_get aircraft_id) ;;
  assigned <- query (flight_by_aircraft aircraft_id) ;;
  return_if (is_some assigned)
    (Error 400 "Cannot delete aircraft that is assigned to flights") ;;;
  stage (remove_aircraft aircraft) ;;;
  commit ;;;
  pure (Success 200 (Some "Aircraft deleted successfully") NoData).

(* ================================================================= *)
(** ** app/routes.py: flight endpoints *)

Section FlightRoutes.
Context `{IsoFormat}.

(** [GET /flights]: the query is the conjunction of the filters applied so
    far. *)
Definition get_flights (args : FlightArgs.t) : View Response :=
  let q0 := fun _ : Flight.t => true in
  q1 <-
    match FlightArgs.departure_airport args with
    | Some departure_airport =>
        if str_truthy (Some departure_airport) then
          return_if (negb (validate_icao_code departure_airport))
            (Error 400 ("Invalid ICAO code: " ++ departure_airport)%string) ;;;
          pure (fun f => q0 f && String.eqb (Flight.departure_airport f)
                                            (upper departure_airport))
        else pure q0
    | None => pure q0
    end ;;
  q2 <-
    match FlightArgs.arrival_airport args with
    | Some arrival_airport =>
        if str_truthy (Some arrival_airport) then
          return_if (negb (validate_icao_code arrival_airport))
            (Error 400 ("Invalid ICAO code: " ++ arrival_airport)%string) ;;;
          pure (fun f => q1 f && String.eqb (Flight.arrival_airport f)
                                            (upper arrival_airport))
        else pure q1
    | None => pure q1
    end ;;
  q3 <-
    match FlightArgs.departure_after args with
    | Some departure_after =>
        if str_truthy (Some departure_after) then
          match parse_datetime departure_after with
          | None =>
              respond (Error 400
                ("Invalid datetime format for departure_after: "
                 ++ departure_after)%string)
          | Some dt => pure (fun f => q2 f && (dt <=? Flight.departure_time f))
          end
        else pure q2
    | None => pure q2
    end ;;
  q4 <-
    match FlightArgs.departure_before args with
    | Some departure_before =>
        if str_truthy (Some departure_before) then
          match parse_datetime departure_before with
          | None =>
              respond (Error 400
                ("Invalid datetime format for departure_before: "
                 ++ departure_before)%string)
          | Some dt => pure (fun f => q3 f && (Flight.departure_time f <=? dt))
          end
        else pure q3
    | None => pure q3
    end ;;
  d <- query (fun d => d) ;;
  pure (Success 200 None
          (FlightList (map (flight_to_dict d) (filter q4 (flight_table d))))).

(** [GET /flights/<id>] *)
Definition get_flight_by_id (flight_id : Z) : View Response :=
  flight <- get_or_404 (flight_get flight_id) ;;
  d <- query (fun d => d) ;;
  pure (Success 200 None (FlightData (flight_to_dict d flight))).

Definition required_fields : list string :=
  ["departure_airport"; "arrival_airport"; "departure_time"; "arrival_time"].

(** [field in data] *)
Definition has_field (data : FlightBody.t) (field : string) : bool :=
  if String.eqb field "departure_airport"
  then is_some (FlightBody.departure_airport data)
  else if String.eqb field "arrival_airport"
  then is_some (FlightBody.arrival_airport data)
  else if String.eqb field "departure_time"
  then is_some (FlightBody.departure_time data)
  else if String.eqb field "arrival_time"
  then is_some (FlightBody.arrival_time data)
  else if String.eqb field "aircraft_id"
  then is_some (FlightBody.aircraft_id data)
  else false.

(** [data.get("aircraft_id")] *)
Definition get_aircraft_id (data : FlightBody.t) : option Z :=
  match FlightBody.aircraft_id data with
  | Some v => v
  | None => None
  end.

(** [POST /flights]; [now] is [datetime.utcnow()]. *)
Definition create_flight (now : datetime) (data : FlightBody.t)
    : View Response :=
  let missing_fields :=
    filter (fun field => negb (has_field data field)) required_fields in
  return_if (negb (List.length missing_fields =? 0)%nat)
    (Error 400 ("Missing required fields: "
                ++ join ", " missing_fields)%string) ;;;
  departure_airport <- getitem (FlightBody.departure_airport data) ;;
  return_if (negb (validate_icao_code departure_airport))
    (Error 400 ("Invalid departure airport ICAO code: "
                ++ departure_airport)%string) ;;;
  arrival_airport <- getitem (FlightBody.arrival_airport data) ;;
  return_if (negb (validate_icao_code arrival_airport))
    (Error 400 ("Invalid arrival airport ICAO code: "
                ++ arrival_airport)%string) ;;;
  departure_str <- getitem (FlightBody.departure_time data) ;;
  arrival_str <- getitem (FlightBody.arrival_time data) ;;
  match parse_datetime departure_str, parse_datetime arrival_str with
  | None, _ =>
      respond (Error 400 ("Invalid departure_time format: "
                          ++ departure_str)%string)
  | Some _, None =>
      respond (Error 400 ("Invalid arrival_time format: "
                          ++ arrival_str)%string)
  | Some departure_time, Some arrival_time =>
      return_if (departure_time <=? now)
        (Error 400 "Departure time must be in the future") ;;;
      return_if (arrival_time <=? departure_time)
        (Error 400 "Arrival time must be after departure time") ;;;
      let aircraft_id := get_aircraft_id data in
      match aircraft_id with
      | Some n =>
          if int_truthy aircraft_id then
            aircraft <- query (aircraft_get n) ;;
            return_if (negb (is_some aircraft))
              (Error 404 ("Aircraft with ID " ++ str_of_int n
                          ++ " not found")%string)
          else pure tt
      | None => pure tt
      end ;;;
      flight <- add_flight (upper departure_airport) (upper arrival_airport)
                           departure_time arrival_time aircraft_id ;;
      commit ;;;
      d <- query (fun d => d) ;;
      pure (Success 201 (Some "Flight created successfully")
                    (FlightData (flight_to_dict d flight)))
  end.

(** [PUT /flights/<id>] *)
Definition update_flight (now : datetime) (flight_id : Z)
    (data : FlightBody.t) : View Response :=
  flight <- get_or_404 (flight_get flight_id) ;;
  flight <-
    match FlightBody.departure_time data with
    | Some departure_str =>
        match parse_datetime departure_str with
        | None =>
            respond (Error 400 ("Invalid departure_time format: "
                                ++ departure_str)%string)
        | Some departure_time =>
            return_if (departure_time <=? now)
              (Error 400 "Departure time must be in the future") ;;;
            setattr_flight (Flight.set_departure_time departure_time flight)
        end
    | None => pure flight
    end ;;
  flight <-
    match FlightBody.arrival_time data with
    | Some arrival_str =>
        match parse_datetime arrival_str with
        | None =>
            respond (Error 400 ("Invalid arrival_time format: "
                                ++ arrival_str)%string)
        | Some arrival_time =>
            (* [departure] is [None] only where the first block has
               already returned. *)
            let departure :=
              match FlightBody.departure_time data with
              | Some departure_str => parse_datetime departure_str
              | None => Some (Flight.departure_time flight)
              end in
            departure <- getitem departure ;;
            return_if (arrival_time <=? departure)
              (Error 400 "Arrival time must be after departure time") ;;;
            setattr_flight (Flight.set_arrival_time arrival_time flight)
        end
    | None => pure flight
    end ;;
  flight <-
    match FlightBody.departure_airport data with
    | Some departure_airport =>
        return_if (negb (validate_icao_code departure_airport))
          (Error 400 ("Invalid departure airport ICAO code: "
                      ++ departure_airport)%string) ;;;
        setattr_flight
          (Flight.set_departure_airport (upper departure_airport) flight)
    | None => pure flight
    end ;;
  flight <-
    match FlightBody.arrival_airport data with
    | Some arrival_airport =>
        return_if (negb (validate_icao_code arrival_airport))
          (Error 400 ("Invalid arrival airport ICAO code: "
                      ++ arrival_airport)%string) ;;;
        setattr_flight
          (Flight.set_arrival_airport (upper arrival_airport) flight)
    | None => pure flight
    end ;;
  flight <-
    match FlightBody.aircraft_id data with
    | Some aircraft_id =>
        match aircraft_id with
        | Some n =>
            aircraft <- query (aircraft_get n) ;;
            return_if (negb (is_some aircraft))
              (Error 404 ("Aircraft with ID " ++ str_of_int n
                          ++ " not found")%string)
        | None => pure tt
        end ;;;
        setattr_flight (Flight.set_aircraft_id aircraft_id flight)
    | None => pure flight
    end ;;
  commit ;;;
  d <- query (fun d => d) ;;
  pure (Success 200 (Some "Flight updated successfully")
                (FlightData (flight_to_dict d flight))).

(** [DELETE /flights/<id>] *)
Definition delete_flight (flight_id : Z) : View Response :=
  flight <- get_or_404 (flight_get flight_id) ;;
  stage (remove_flight flight) ;;;
  commit ;;;
  pure (Success 200 (Some "Flight deleted successfully") NoData).

(** [PUT /flights/<id>/assign-aircraft/<id>] *)
Definition assign_aircraft_to_flight (flight_id aircraft_id : Z)
    : View Response :=
  flight <- get_or_404 (flight_get flight_id) ;;
  aircraft <- get_or_404 (aircraft_get aircraft_id) ;;
  flight <- setattr_flight
              (Flight.set_aircraft_id (Some (Aircraft.id aircraft)) flight) ;;
  commit ;;;
  d <- query (fun d => d) ;;
  pure (Success 200
          (Some ("Aircraft '" ++ Aircraft.serial_number aircraft
                 ++ "' assigned to flight " ++ str_of_int flight_id)%string)
          (FlightData (flight_to_dict d flight))).
End FlightRoutes.

(* ================================================================= *)
(** ** app/routes.py: the statistics report *)

(** The filter of the query: the flight starts within the range, or ends
    within the range, or spans it. *)
Definition within_range (start_time end_time : datetime) (f : Flight.t) : bool :=
  ((start_time <=? Flight.departure_time f)
   && (Flight.departure_time f <=? end_time))
  || ((start_time <=? Flight.arrival_time f)
      && (Flight.arrival_time f <=? end_time))
  || ((Flight.departure_time f <=? start_time)
      && (end_time <=? Flight.arrival_time f)).

(** The value kept for a departure airport in [stats]. *)
Record AirportStats := mkStats {
  flight_count : Z;
  aircraft_flight_times : list (Z * Q);
  total_flight_time : Q
}.

Definition new_stats : AirportStats := mkStats 0 [] 0%Q.

Definition StatsDict := list (string * AirportStats).

(** The body of [for flight in flights]. *)
Definition count_flight (start_time end_time : datetime) (stats : StatsDict)
    (flight : Flight.t) : StatsDict :=
  let departure_airport := Flight.departure_airport flight in
  let stats :=
    if negb (dict_mem String.eqb departure_airport stats)
    then dict_set String.eqb departure_airport new_stats stats
    else stats in
  let stats :=
    dict_modify String.eqb departure_airport
      (fun g => mkStats (flight_count g + 1) (aircraft_flight_times g)
                        (total_flight_time g)) stats in
  match Flight.aircraft_id flight with
  | Some aircraft_id =>
      if int_truthy (Some aircraft_id) then
        let in_flight_minutes :=
          calculate_inflight_time flight start_time end_time in
        dict_modify String.eqb departure_airport
          (fun g =>
             let times :=
               if negb (dict_mem Z.eqb aircraft_id (aircraft_flight_times g))
               then dict_set Z.eqb aircraft_id 0%Q (aircraft_flight_times g)
               else aircraft_flight_times g in
             let times :=
               dict_modify Z.eqb aircraft_id
                 (fun minutes => (minutes + in_flight_minutes)%Q) times in
             mkStats (flight_count g) times
                     (total_flight_time g + in_flight_minutes)%Q)
          stats
      else stats
  | None => stats
  end.

(** [stats] after the loop over [flights]. *)
Definition group_flights (start_time end_time : datetime)
    (flights : list Flight.t) : StatsDict :=
  fold_left (count_flight start_time end_time) flights [].

(** One element of [result]. *)
Definition format_airport (d : Db) (entry : string * AirportStats)
    : AirportData.t :=
  let (airport, data) := entry in
  AirportData.make airport (flight_count data)
    (map (fun item : Z * Q =>
            let (aircraft_id, minutes) := item in
            AircraftMinutes.make aircraft_id
              (match aircraft_get aircraft_id d with
               | Some aircraft => Aircraft.serial_number aircraft
               | None => "Unknown"
               end)
              (round2 minutes))
         (aircraft_flight_times data))
    (if flight_count data >? 0
     then round2 (total_flight_time data / inject_Z (flight_count data))
     else 0%Q).

Section Report.
Context `{IsoFormat}.

(** [GET /reports/flight-stats] *)
Definition flight_statistics (args : StatsArgs.t) : View Response :=
  return_if (negb (str_truthy (StatsArgs.start_time args))
             || negb (str_truthy (StatsArgs.end_time args)))
    (Error 400 "Both start_time and end_time are required") ;;;
  start_time_str <- getitem (StatsArgs.start_time args) ;;
  end_time_str <- getitem (StatsArgs.end_time args) ;;
  match parse_datetime start_time_str, parse_datetime end_time_str with
  | Some start_time, Some end_time =>
      return_if (end_time <=? start_time)
        (Error 400 "end_time must be after start_time") ;;;
      d <- query (fun d => d) ;;
      let flights := filter (within_range start_time end_time)
                            (flight_table d) in
      let stats := group_flights start_time end_time flights in
      let result := map (format_airport d) stats in
      pure (Success 200 None
              (ReportData result
                 (Meta.make start_time end_time
                    (Z.of_nat (List.length result))
                    (fold_left Z.add
                       (map AirportData.flight_count result) 0))))
  | _, _ => respond (Error 400 "Invalid datetime format")
  end.
End Report.

(* ================================================================= *)
(** ** Requests *)

Inductive Request :=
| GetAircraft
| GetAircraftById (aircraft_id : Z)
| CreateAircraft (data : AircraftBody.t)
| UpdateAircraft (aircraft_id : Z) (data : AircraftBody.t)
| DeleteAircraft (aircraft_id : Z)
| GetFlights (args : FlightArgs.t)
| GetFlightById (flight_id : Z)
| CreateFlight (data : FlightBody.t)
| UpdateFlight (flight_id : Z) (data : FlightBody.t)
| DeleteFlight (flight_id : Z)
| AssignAircraft (flight_id aircraft_id : Z)
| FlightStatistics (args : StatsArgs.t).

(** The view function the blueprint routes a request to. *)
Definition view_function `{IsoFormat} (now : datetime) (req : Request)
    : View Response :=
  match req with
  | GetAircraft => get_aircraft
  | GetAircraftById i => get_aircraft_by_id i
  | CreateAircraft data => create_aircraft data
  | UpdateAircraft i data => update_aircraft i data
  | DeleteAircraft i => delete_aircraft i
  | GetFlights args => get_flights args
  | GetFlightById i => get_flight_by_id i
  | CreateFlight data => create_flight now data
  | UpdateFlight i data => update_flight now i data
  | DeleteFlight i => delete_flight i
  | AssignAircraft f a => assign_aircraft_to_flight f a
  | FlightStatistics args => flight_statistics args
  end.

(** A request served on a database: the session is opened for the request
    and dropped after it, so what the request leaves is the stored image. *)
Definition serve `{IsoFormat} (now : datetime) (req : Request) (d : Db)
    : Response * Db :=
  let (r, s) := run (view_function now req) (begin d) in
  (r, stored s).

(* ================================================================= *)
(** ** A concrete [fromisoformat] for worked examples *)

(** The function below reads the two forms [YYYY-MM-DD] and
    [YYYY-MM-DD?HH:MM:SS] (any separator character), on which it returns
    the instant [datetime.fromisoformat] returns, counted in microseconds
    from 1970-01-01T00:00:00.  It is used to run the handlers on concrete
    requests only; no general result depends on it. *)

Definition digit (c : ascii) : option Z :=
  let n := Z.of_N (N_of_ascii c) in
  if (48 <=? n) && (n <=? 57) then Some (n - 48) else None.

Fixpoint number_from (acc : Z) (cs : list ascii) : option Z :=
  match cs with
  | [] => Some acc
  | c :: r =>
      match digit c with
      | Some v => number_from (10 * acc + v) r
      | None => None
      end
  end.

Definition number (cs : list ascii) : option Z := number_from 0 cs.

Definition is_leap (y : Z) : bool :=
  (y mod 4 =? 0) && (negb (y mod 100 =? 0) || (y mod 400 =? 0)).

Definition days_in_month (y m : Z) : Z :=
  if m =? 2 then (if is_leap y then 29 else 28)
  else if (m =? 4) || (m =? 6) || (m =? 9) || (m =? 11) then 30
  else 31.

(** Days from 1970-01-01 to the given civil date. *)
Definition days_from_civil (y m d : Z) : Z :=
  let y' := if m <=? 2 then y - 1 else y in
  let era := y' / 400 in
  let yoe := y' - era * 400 in
  let mp := if 2 <? m then m - 3 else m + 9 in
  let doy := (153 * mp + 2) / 5 + d - 1 in
  let doe := yoe * 365 + yoe / 4 - yoe / 100 + doy in
  era * 146097 + doe - 719468.

Definition civil (y m d hh mm ss : Z) : option datetime :=
  if (1 <=? y) && (y <=? 9999) && (1 <=? m) && (m <=? 12)
     && (1 <=? d) && (d <=? days_in_month y m)
     && (hh <? 24) && (mm <? 60) && (ss <? 60)
  then Some ((((days_from_civil y m d * 24 + hh) * 60 + mm) * 60 + ss)
             * 1000000)
  else None.

Definition is_char (c : ascii) (s : string) : bool :=
  String.eqb (String c EmptyString) s.

Definition iso_date (cs : list ascii) (hh mm ss : Z) : option datetime :=
  match cs with
  | [y1; y2; y3; y4; s1; m1; m2; s2; d1; d2] =>
      if is_char s1 "-" && is_char s2 "-" then
        match number [y1; y2; y3; y4], number [m1; m2], number [d1; d2] with
        | Some y, Some m, Some d => civil y m d hh mm ss
        | _, _, _ => None
        end
      else None
  | _ => None
  end.

Definition iso_basic (s : string) : option datetime :=
  let cs := list_ascii_of_string s in
  match skipn 10 cs with
  | [] => iso_date cs 0 0 0
  | [_; h1; h2; c1; m1; m2; c2; s1; s2] =>
      if is_char c1 ":" && is_char c2 ":" then
        match number [h1; h2], number [m1; m2], number [s1; s2] with
        | Some hh, Some mm, Some ss => iso_date (firstn 10 cs) hh mm ss
        | _, _, _ => None
        end
      else None
  | _ => None
  end.

Definition iso_basic_format : IsoFormat := iso_basic.

(** The instant a timestamp of the two forms denotes ([0] otherwise). *)
Definition at_time (s : string) : datetime :=
  match iso_basic s with Some t => t | None => 0 end.

(* ================================================================= *)
(** ** The specification's notions *)

(** Following the specification's words: the general interval-intersection
    test, [departure_time <= end_time AND arrival_time >= start_time]. *)
Definition intersects (start_time end_time : datetime) (f : Flight.t) : bool :=
  (Flight.departure_time f <=? end_time)
  && (start_time <=? Flight.arrival_time f).

(** Following the specification's words: a span of time expressed in
    (fractional) minutes. *)
Definition in_minutes (td : timedelta) : Q := td # 60000000.

(** Following the specification's words: the overlap of a flight with the
    window, [min(arrival_time, end_time) - max(departure_time, start_time)]. *)
Definition clipped_overlap (f : Flight.t) (start_time end_time : datetime)
    : timedelta :=
  Z.min (Flight.arrival_time f) end_time
  - Z.max (Flight.departure_time f) start_time.

(** Following the specification's words: the window of a statistics request
    is valid when both bounds are given (present and not empty), both parse,
    and [end_time] is strictly after [start_time]. *)
Definition valid_window `{IsoFormat} (args : StatsArgs.t)
    : option (datetime * datetime) :=
  match StatsArgs.start_time args, StatsArgs.end_time args with
  | Some s, Some e =>
      if String.eqb s EmptyString || String.eqb e EmptyString then None
      else match parse_datetime s, parse_datetime e with
           | Some start_time, Some end_time =>
               if start_time <? end_time then Some (start_time, end_time)
               else None
           | _, _ => None
           end
  | _, _ => None
  end.

(** Following the specification's words: the flights of a list that depart
    from an airport. *)
Definition departing (airport : string) (flights : list Flight.t)
    : list Flight.t :=
  filter (fun f => String.eqb (Flight.departure_airport f) airport) flights.

(** The test the report makes on a flight's aircraft assignment. *)
Definition has_aircraft (f : Flight.t) : bool :=
  int_truthy (Flight.aircraft_id f).

(** The flight is assigned the aircraft with the given key. *)
Definition flown_by (aircraft_id : Z) (f : Flight.t) : bool :=
  match Flight.aircraft_id f with
  | Some a => a =? aircraft_id
  | None => false
  end.

(** Following the specification's words: the in-flight minutes of a list of
    flights within the window, added up in list order. *)
Definition minutes_sum (start_time end_time : datetime)
    (flights : list Flight.t) : Q :=
  fold_left (fun acc f => (acc + calculate_inflight_time f start_time end_time)%Q)
            flights 0%Q.

(** What the loop body does to the entry of the flight's departure airport. *)
Definition count_in_group (start_time end_time : datetime)
    (flight : Flight.t) (g : AirportStats) : AirportStats :=
  match Flight.aircraft_id flight with
  | Some aircraft_id =>
      if int_truthy (Some aircraft_id) then
        let m := calculate_inflight_time flight start_time end_time in
        mkStats (flight_count g + 1)
          (dict_modify Z.eqb aircraft_id (fun minutes => (minutes + m)%Q)
             (if negb (dict_mem Z.eqb aircraft_id (aircraft_flight_times g))
              then dict_set Z.eqb aircraft_id 0%Q (aircraft_flight_times g)
              else aircraft_flight_times g))
          (total_flight_time g + m)%Q
      else mkStats (flight_count g + 1) (aircraft_flight_times g)
                   (total_flight_time g)
  | None => mkStats (flight_count g + 1) (aircraft_flight_times g)
                    (total_flight_time g)
  end.

(** The per-aircraft minutes of a group, stated over the flights [fl] the
    group has counted. *)
Definition times_spec (start_time end_time : datetime) (fl : list Flight.t)
    (times : list (Z * Q)) : Prop :=
  NoDup (dict_keys times)
  /\ forall a,
       dict_get Z.eqb a times
       = if negb (a =? 0) && existsb (flown_by a) fl
         then Some (minutes_sum start_time end_time (filter (flown_by a) fl))
         else None.

(** A group, stated over the flights [fl] it has counted. *)
Definition group_spec (start_time end_time : datetime) (fl : list Flight.t)
    (g : AirportStats) : Prop :=
  flight_count g = Z.of_nat (List.length fl)
  /\ total_flight_time g
     = minutes_sum start_time end_time (filter has_aircraft fl)
  /\ times_spec start_time end_time fl (aircraft_flight_times g).

(** The dictionary [stats], stated over the flights the loop has seen. *)
Definition stats_spec (start_time end_time : datetime) (l : list Flight.t)
    (stats : StatsDict) : Prop :=
  NoDup (dict_keys stats)
  /\ forall k,
       match dict_get String.eqb k stats with
       | Some g => departing k l <> []
                   /\ group_spec start_time end_time (departing k l) g
       | None => departing k l = []
       end.

(** The entry of an airport before the loop body runs: the one in [stats],
    or the fresh one the body puts there. *)
Definition group_or_new (o : option AirportStats) : AirportStats :=
  match o with Some g => g | None => new_stats end.

(** Following the specification's words: an element of the report describes
    the selected flights of its airport.  Its [flight_count] is their
    number, its [average_flight_time] is their total in-flight minutes
    divided by the flight count and rounded to 2 decimal places, and each
    per-aircraft value is that aircraft's accumulated minutes rounded to 2
    decimal places. *)
Definition airport_data_spec (start_time end_time : datetime)
    (flights : list Flight.t) (g : AirportData.t) : Prop :=
  let fl := departing (AirportData.departure_airport g) flights in
  fl <> []
  /\ AirportData.flight_count g = Z.of_nat (List.length fl)
  /\ AirportData.average_flight_time g
     = round2 (minutes_sum start_time end_time (filter has_aircraft fl)
               / inject_Z (AirportData.flight_count g))
  /\ Forall (fun t =>
               AircraftMinutes.in_flight_minutes t
               = round2 (minutes_sum start_time end_time
                           (filter (flown_by (AircraftMinutes.aircraft_id t))
                                   fl)))
            (AirportData.aircraft_flight_times g).

(** A step of a handler that leaves the stored image alone. *)
Definition quiet {A} (v : View A) : Prop :=
  forall s, stored (snd (v s)) = stored s.

(** A view function that answers with a success whatever the session. *)
Definition succeeds (v : View Response) : Prop :=
  forall s, is_success (fst (run v s)) = true.

(** A view function that leaves the stored image alone whenever its answer
    is not a success. *)
Definition safe (v : View Response) : Prop :=
  forall s, is_success (fst (run v s)) = false ->
            stored (snd (run v s)) = stored s.





Definition field_text (o : option string) : string :=
  match o with Some s => s | None => EmptyString end.



(** The aircraft table is well formed when its keys are pairwise different
    and its serial numbers are pairwise different. *)
Definition wf_aircraft (d : Db) : Prop :=
  NoDup (map Aircraft.id (aircraft_table d))
  /\ NoDup (map Aircraft.serial_number (aircraft_table d)).

(** No aircraft other than the one with key [i] has the serial number. *)
Definition serial_free (serial : string) (i : Z) (d : Db) : Prop :=
  forall r, In r (aircraft_table d) -> Aircraft.id r <> i ->
            Aircraft.serial_number r <> serial.

(** A flight whose departure is before its arrival. *)
Definition ordered (f : Flight.t) : Prop :=
  Flight.departure_time f < Flight.arrival_time f.


(** An update of a flight that carries a [departure_time] and no
    [arrival_time]. *)
Definition departure_only (req : Request) : bool :=
  match req with
  | UpdateFlight _ data =>
      is_some (FlightBody.departure_time data)
      && negb (is_some (FlightBody.arrival_time data))
  | _ => false
  end.

(** The ways a request served at time [now] can change the stored
    database, each with what the handler has checked before it commits. *)
Inductive Change (now : datetime) (req : Request) (d : Db) : Db -> Prop :=
| Unchanged : Change now req d d
| AircraftInserted (serial manuf : string) :
    aircraft_by_serial serial d = None ->
    Change now req d (snd (insert_aircraft serial manuf d))
| AircraftWritten (a a' : Aircraft.t) :
    aircraft_get (Aircraft.id a') d = Some a ->
    (Aircraft.serial_number a' = Aircraft.serial_number a
     \/ match aircraft_by_serial (Aircraft.serial_number a') d with
        | Some e => negb (Aircraft.id e =? Aircraft.id a')
        | None => false
        end = false) ->
    Change now req d (write_aircraft a' d)
| AircraftRemoved (a : Aircraft.t) :
    aircraft_get (Aircraft.id a) d = Some a ->
    flight_by_aircraft (Aircraft.id a) d = None ->
    Change now req d (remove_aircraft a d)
| FlightInserted (dep arr : string) (t1 t2 : datetime) (aid : option Z) :
    validate_icao_code dep = true ->
    validate_icao_code arr = true ->
    now < t1 ->
    t1 < t2 ->
    (forall n, aid = Some n -> n <> 0 -> is_some (aircraft_get n d) = true) ->
    Change now req d (snd (insert_flight (upper dep) (upper arr) t1 t2 aid d))
| FlightWritten (f f' : Flight.t) :
    flight_get (Flight.id f') d = Some f ->
    (Flight.departure_airport f' = Flight.departure_airport f
     \/ exists c, validate_icao_code c = true
                  /\ Flight.departure_airport f' = upper c) ->
    (Flight.arrival_airport f' = Flight.arrival_airport f
     \/ exists c, validate_icao_code c = true
                  /\ Flight.arrival_airport f' = upper c) ->
    (Flight.aircraft_id f' = Flight.aircraft_id f
     \/ Flight.aircraft_id f' = None
     \/ exists n, Flight.aircraft_id f' = Some n
                  /\ is_some (aircraft_get n d) = true) ->
    ((Flight.departure_time f' = Flight.departure_time f
      /\ Flight.arrival_time f' = Flight.arrival_time f)
     \/ ordered f'
     \/ (departure_only req = true
         /\ Flight.arrival_time f' = Flight.arrival_time f
         /\ now < Flight.departure_time f')) ->
    Change now req d (write_flight f' d)
| FlightRemoved (f : Flight.t) :
    flight_get (Flight.id f) d = Some f ->
    Change now req d (remove_flight f d).

(** Keys and serial numbers are pairwise different. *)
Definition unique_keys (d : Db) : Prop :=
  wf_aircraft d /\ NoDup (map Flight.id (flight_table d)).

(** Every flight that names an aircraft (other than by 0) names one the
    store has. *)
Definition references_resolve (d : Db) : Prop :=
  forall f n,
    In f (flight_table d) -> Flight.aircraft_id f = Some n -> n <> 0 ->
    is_some (aircraft_get n d) = true.


(** Every stored flight departs before it arrives. *)
Definition flights_ordered (d : Db) : Prop := Forall ordered (flight_table d).

(** The sum of the minutes a group holds for its aircraft. *)
Definition times_total (times : list (Z * Q)) : Q :=
  fold_right (fun item acc => (snd item + acc)%Q) 0%Q times.

(** The elements of a list in the order of their first occurrence. *)
Definition first_seen (l : list string) : list string :=
  fold_left (fun seen k => if existsb (String.eqb k) seen then seen
                           else seen ++ [k]) l [].

(** The store before any request. *)
Definition empty_db : Db := mkDb [] [].


(** A step of a handler that leaves the whole session alone. *)
Definition still {A} (v : View A) : Prop := forall s, snd (v s) = s.

(** The requests of the five [GET] routes. *)
Definition read_only (req : Request) : bool :=
  match req with
  | GetAircraft | GetAircraftById _ | GetFlights _ | GetFlightById _
  | FlightStatistics _ => true
  | _ => false
  end.

(* ================================================================= *)
(** ** Worked data *)

Definition flight_touching : Flight.t :=
  Flight.make 1 "KJFK" "EGLL" (at_time "2030-01-01T10:00:00")
              (at_time "2030-01-01T12:00:00") (Some 1).

Definition flight_spanning : Flight.t :=
  Flight.make 2 "EGLL" "KJFK" (at_time "2030-01-01T08:00:00")
              (at_time "2030-01-01T20:00:00") (Some 2).

(** A stored flight with no aircraft assigned. *)
Definition flight_unassigned : Flight.t :=
  Flight.make 3 "KJFK" "LFPG" (at_time "2030-01-01T13:00:00")
              (at_time "2030-01-01T15:00:00") None.

Definition sample_db : Db :=
  mkDb [Aircraft.make 1 "TEST001" "Airbus"; Aircraft.make 2 "TEST002" "Boeing"]
       [flight_touching; flight_spanning; flight_unassigned].

Definition sample_window : StatsArgs.t :=
  StatsArgs.make (Some "2030-01-01T12:00:00") (Some "2030-01-01T18:00:00").

(** A flight whose [aircraft_id] is the integer 0, and the store that holds
    nothing else. *)
Definition flight_zero_id : Flight.t :=
  Flight.make 1 "KJFK" "EGLL" (at_time "2030-01-01T10:00:00")
              (at_time "2030-01-01T12:00:00") (Some 0).

Definition zero_id_db : Db := mkDb [] [flight_zero_id].

(** The request that creates it. *)
Definition zero_id_body : FlightBody.t :=
  FlightBody.make (Some "kjfk") (Some "egll") (Some "2030-01-01T10:00:00")
                  (Some "2030-01-01T12:00:00") (Some (Some 0)).

(** A partial update that moves the departure of flight 1 of the sample
    store past its arrival. *)
Definition late_departure_body : FlightBody.t :=
  FlightBody.make None None (Some "2030-01-02T10:00:00") None None.

(** A partial update with a good departure time and a malformed arrival
    airport. *)
Definition bad_airport_body : FlightBody.t :=
  FlightBody.make None (Some "EG1L") (Some "2030-01-01T09:00:00") None None.

(** The clock of the worked requests. *)
Definition sample_now : datetime := at_time "2029-01-01T00:00:00".



(** The sample store with a third aircraft that flies nothing. *)
Definition fleet_db : Db :=
  mkDb (aircraft_table sample_db ++ [Aircraft.make 3 "TEST003" "Embraer"])
       (flight_table sample_db).

(** Following the query parameters' documentation: a flight passes the
    filters when it has the departure airport and the arrival airport asked
    for (compared in upper case) and departs neither before
    [departure_after] nor after [departure_before]; a parameter that is
    absent or empty asks for nothing. *)
Definition passes_filters `{IsoFormat} (args : FlightArgs.t) (f : Flight.t)
    : bool :=
  (match FlightArgs.departure_airport args with
   | Some (String c r) =>
       String.eqb (Flight.departure_airport f) (upper (String c r))
   | _ => true
   end)
  && (match FlightArgs.arrival_airport args with
      | Some (String c r) =>
          String.eqb (Flight.arrival_airport f) (upper (String c r))
      | _ => true
      end)
  && (match FlightArgs.departure_after args with
      | Some (String c r) =>
          match parse_datetime (String c r) with
          | Some dt => dt <=? Flight.departure_time f
          | None => true
          end
      | _ => true
      end)
  && (match FlightArgs.departure_before args with
      | Some (String c r) =>
          match parse_datetime (String c r) with
          | Some dt => Flight.departure_time f <=? dt
          | None => true
          end
      | _ => true
      end).

(** A filter value that [get_flights] refuses. *)
Definition bad_code (o : option string) : bool :=
  match o with
  | Some (String c r) => negb (validate_icao_code (String c r))
  | _ => false
  end.

Definition bad_time `{IsoFormat} (o : option string) : bool :=
  match o with
  | Some (String c r) => negb (is_some (parse_datetime (String c r)))
  | _ => false
  end.

(* ================================================================= *)
(** * Properties *)

(** ** The selection test *)

Ltac leb_cases :=
  repeat match goal with
         | |- context [?a <=? ?b] => destruct (Z.leb_spec a b)
         | |- context [?a <? ?b] => destruct (Z.ltb_spec a b)
         end.

(** C3. For a flight with [departure_time < arrival_time] and a window with
    [start_time < end_time], the three-clause selection test of the report
    agrees with the general interval-intersection test; and a flight whose
    [arrival_time] equals [start_time] is selected. *)
Theorem within_range_is_intersection :
  forall (f : Flight.t) (start_time end_time : datetime),
    Flight.departure_time f < Flight.arrival_time f ->
    start_time < end_time ->
    within_range start_time end_time f = intersects start_time end_time f
    /\ (Flight.arrival_time f = start_time ->
        within_range start_time end_time f = true).
Proof.
  intros f s e Hf Hw. unfold within_range, intersects.
  split; [| intros Hb]; leb_cases; simpl; try reflexivity; lia.
Qed.

Lemma within_range_is_intersection_witness :
  within_range (at_time "2030-01-01T12:00:00") (at_time "2030-01-01T18:00:00")
               flight_touching
  = intersects (at_time "2030-01-01T12:00:00") (at_time "2030-01-01T18:00:00")
               flight_touching
  /\ (Flight.arrival_time flight_touching = at_time "2030-01-01T12:00:00" ->
      within_range (at_time "2030-01-01T12:00:00")
                   (at_time "2030-01-01T18:00:00") flight_touching = true).
Proof.
  apply (within_range_is_intersection flight_touching); vm_compute; reflexivity.
Defined.

(** ** The clipped in-flight time *)

Lemma in_minutes_total_seconds :
  forall td : timedelta, (total_seconds td / 60 == in_minutes td)%Q.
Proof.
  intros td. unfold total_seconds, in_minutes, Qdiv, Qmult, Qinv, Qeq, inject_Z.
  simpl. lia.
Qed.

(** C4. The in-flight time of a flight within a window is its clipped
    overlap [min(arrival_time, end_time) - max(departure_time, start_time)]
    in fractional minutes when that overlap is strictly positive and zero
    otherwise; so a flight that departs before [start_time] and arrives
    after [end_time] of a window contributes [end_time - start_time]
    minutes. *)
Theorem calculate_inflight_time_clipped :
  forall (f : Flight.t) (start_time end_time : datetime),
    (0 < clipped_overlap f start_time end_time ->
     (calculate_inflight_time f start_time end_time
      == in_minutes (clipped_overlap f start_time end_time))%Q)
    /\ (clipped_overlap f start_time end_time <= 0 ->
        calculate_inflight_time f start_time end_time = 0%Q)
    /\ (Flight.departure_time f < start_time ->
        end_time < Flight.arrival_time f ->
        start_time < end_time ->
        (calculate_inflight_time f start_time end_time
         == in_minutes (end_time - start_time)%Z)%Q).
Proof.
  intros f s e. unfold calculate_inflight_time, clipped_overlap.
  repeat split.
  - intros Hpos. destruct (Z.ltb_spec (Z.max (Flight.departure_time f) s)
                                      (Z.min (Flight.arrival_time f) e)).
    + apply in_minutes_total_seconds.
    + lia.
  - intros Hle. destruct (Z.ltb_spec (Z.max (Flight.departure_time f) s)
                                     (Z.min (Flight.arrival_time f) e)).
    + lia.
    + reflexivity.
  - intros Hd Ha Hw.
    replace (Z.max (Flight.departure_time f) s) with s by lia.
    replace (Z.min (Flight.arrival_time f) e) with e by lia.
    destruct (Z.ltb_spec s e); [apply in_minutes_total_seconds | lia].
Qed.

Lemma calculate_inflight_time_clipped_witness :
  (calculate_inflight_time flight_spanning (at_time "2030-01-01T09:00:00")
                           (at_time "2030-01-01T16:00:00")
   == in_minutes (at_time "2030-01-01T16:00:00"
                  - at_time "2030-01-01T09:00:00")%Z)%Q.
Proof.
  apply (proj2 (proj2 (calculate_inflight_time_clipped flight_spanning
                         (at_time "2030-01-01T09:00:00")
                         (at_time "2030-01-01T16:00:00"))));
    vm_compute; reflexivity.
Defined.

(** ** The window of a statistics request *)

Ltac unfold_view :=
  cbv [run bind return_if getitem get_or_404 respond pure query stage commit
       setattr_flight setattr_aircraft add_flight add_aircraft begin
       staged stored].


(** ** Dictionaries *)

Section DictFacts.
Context {K V : Type} (eqb : K -> K -> bool).
Hypothesis eqb_eq : forall a b, eqb a b = true <-> a = b.

Lemma eqb_refl : forall a, eqb a a = true.
Proof. intros a. apply eqb_eq. reflexivity. Qed.

Lemma eqb_neq : forall a b, a <> b -> eqb a b = false.
Proof.
  intros a b Hab. destruct (eqb a b) eqn:E; [| reflexivity].
  apply eqb_eq in E. contradiction.
Qed.

Lemma dict_get_modify_same :
  forall (k : K) (f : V -> V) (d : list (K * V)),
    dict_get eqb k (dict_modify eqb k f d) = option_map f (dict_get eqb k d).
Proof.
  intros k f d. induction d as [| [k' v] r IH]; simpl; [reflexivity |].
  destruct (eqb k k') eqn:E; simpl; rewrite E; [reflexivity | exact IH].
Qed.

Lemma dict_get_modify_other :
  forall (k k' : K) (f : V -> V) (d : list (K * V)),
    k' <> k ->
    dict_get eqb k' (dict_modify eqb k f d) = dict_get eqb k' d.
Proof.
  intros k k' f d Hk. induction d as [| [k0 v] r IH]; simpl; [reflexivity |].
  destruct (eqb k k0) eqn:E; simpl.
  - apply eqb_eq in E. subst k0. rewrite (eqb_neq _ _ Hk). reflexivity.
  - rewrite IH. reflexivity.
Qed.

Lemma dict_keys_modify :
  forall (k : K) (f : V -> V) (d : list (K * V)),
    dict_keys (dict_modify eqb k f d) = dict_keys d.
Proof.
  intros k f d. unfold dict_keys.
  induction d as [| [k' v] r IH]; simpl; [reflexivity |].
  destruct (eqb k k'); simpl; [reflexivity | rewrite IH; reflexivity].
Qed.

Lemma dict_get_app :
  forall (k : K) (d d' : list (K * V)),
    dict_get eqb k (d ++ d')
    = match dict_get eqb k d with
      | Some v => Some v
      | None => dict_get eqb k d'
      end.
Proof.
  intros k d d'. induction d as [| [k' v] r IH]; simpl; [reflexivity |].
  destruct (eqb k k'); [reflexivity | exact IH].
Qed.

Lemma dict_get_none :
  forall (k : K) (d : list (K * V)),
    dict_get eqb k d = None <-> ~ In k (dict_keys d).
Proof.
  intros k d. unfold dict_keys.
  induction d as [| [k' v] r IH]; simpl; [tauto |].
  destruct (eqb k k') eqn:E.
  - apply eqb_eq in E. subst k'. split; [discriminate | tauto].
  - rewrite IH. split; [| tauto].
    intros Hn [Hk | Hk]; [| tauto].
    subst k'. rewrite eqb_refl in E. discriminate.
Qed.


Lemma dict_in_get :
  forall (k : K) (v : V) (d : list (K * V)),
    NoDup (dict_keys d) -> In (k, v) d -> dict_get eqb k d = Some v.
Proof.
  intros k v d. unfold dict_keys.
  induction d as [| [k' v'] r IH]; simpl; [tauto |].
  intros Hnd [Hin | Hin].
  - injection Hin as -> ->. rewrite eqb_refl. reflexivity.
  - inversion Hnd as [| ? ? Hnotin Hnd']; subst.
    destruct (eqb k k') eqn:E.
    + apply eqb_eq in E. subst k'. exfalso. apply Hnotin.
      apply (in_map fst) in Hin. exact Hin.
    + apply IH; assumption.
Qed.

Lemma dict_get_set :
  forall (k k' : K) (v : V) (d : list (K * V)),
    dict_get eqb k' (dict_set eqb k v d)
    = if eqb k' k then Some v else dict_get eqb k' d.
Proof.
  intros k k' v d. unfold dict_set, dict_mem.
  destruct (dict_get eqb k d) as [v0 |] eqn:G.
  - destruct (eqb k' k) eqn:E.
    + apply eqb_eq in E. subst k'. rewrite dict_get_modify_same, G.
      reflexivity.
    + apply dict_get_modify_other. intros ->. rewrite eqb_refl in E.
      discriminate.
  - rewrite dict_get_app. simpl. destruct (eqb k' k) eqn:E.
    + apply eqb_eq in E. subst k'. rewrite G. reflexivity.
    + destruct (dict_get eqb k' d); reflexivity.
Qed.

Lemma dict_keys_set :
  forall (k : K) (v : V) (d : list (K * V)),
    dict_keys (dict_set eqb k v d)
    = if dict_mem eqb k d then dict_keys d else dict_keys d ++ [k].
Proof.
  intros k v d. unfold dict_set. destruct (dict_mem eqb k d).
  - apply dict_keys_modify.
  - unfold dict_keys. rewrite map_app. reflexivity.
Qed.

Lemma dict_keys_nodup_snoc :
  forall (k : K) (d : list (K * V)),
    NoDup (dict_keys d) -> dict_get eqb k d = None ->
    NoDup (dict_keys d ++ [k]).
Proof.
  intros k d Hnd Hg. apply dict_get_none in Hg.
  apply NoDup_app; [exact Hnd | repeat constructor; simpl; tauto |].
  intros x Hx [<- | []]. exact (Hg Hx).
Qed.
End DictFacts.

(** ** The loop of the report *)

Lemma count_flight_get :
  forall (s e : datetime) (stats : StatsDict) (x : Flight.t) (k : string),
    dict_get String.eqb k (count_flight s e stats x)
    = if String.eqb k (Flight.departure_airport x)
      then Some (count_in_group s e x
                   (group_or_new
                      (dict_get String.eqb (Flight.departure_airport x) stats)))
      else dict_get String.eqb k stats.
Proof.
  intros s e stats x k. unfold count_flight, count_in_group.
  set (dep := Flight.departure_airport x).
  set (stats1 := if negb (dict_mem String.eqb dep stats)
                 then dict_set String.eqb dep new_stats stats else stats).
  assert (H1 : forall k', dict_get String.eqb k' stats1
                          = if String.eqb k' dep
                            then Some (group_or_new (dict_get String.eqb dep stats))
                            else dict_get String.eqb k' stats).
  { intros k'. unfold stats1, dict_mem.
    destruct (dict_get String.eqb dep stats) as [g |] eqn:G; simpl.
    - destruct (String.eqb k' dep) eqn:E; [| reflexivity].
      apply String.eqb_eq in E. subst k'. exact G.
    - rewrite (dict_get_set _ String.eqb_eq). reflexivity. }
  destruct (String.eqb k dep) eqn:E.
  - apply String.eqb_eq in E. subst k.
    destruct (Flight.aircraft_id x) as [a |];
      [destruct (int_truthy (Some a)) |];
      repeat rewrite (dict_get_modify_same String.eqb);
      rewrite H1, String.eqb_refl; reflexivity.
  - assert (Hk : k <> dep) by (intros ->; rewrite String.eqb_refl in E;
                               discriminate).
    destruct (Flight.aircraft_id x) as [a |];
      [destruct (int_truthy (Some a)) |];
      repeat rewrite (dict_get_modify_other _ String.eqb_eq) by exact Hk;
      rewrite H1, E; reflexivity.
Qed.

Lemma count_flight_keys :
  forall (s e : datetime) (stats : StatsDict) (x : Flight.t),
    dict_keys (count_flight s e stats x)
    = if dict_mem String.eqb (Flight.departure_airport x) stats
      then dict_keys stats
      else dict_keys stats ++ [Flight.departure_airport x].
Proof.
  intros s e stats x. unfold count_flight.
  assert (H1 : dict_keys
                 (if negb (dict_mem String.eqb (Flight.departure_airport x) stats)
                  then dict_set String.eqb (Flight.departure_airport x)
                                new_stats stats
                  else stats)
               = if dict_mem String.eqb (Flight.departure_airport x) stats
                 then dict_keys stats
                 else dict_keys stats ++ [Flight.departure_airport x]).
  { destruct (dict_mem String.eqb (Flight.departure_airport x) stats) eqn:M;
      simpl; [reflexivity |].
    rewrite dict_keys_set, M. reflexivity. }
  destruct (Flight.aircraft_id x) as [a |];
    [destruct (int_truthy (Some a)) |];
    repeat rewrite dict_keys_modify; exact H1.
Qed.

Lemma group_flights_snoc :
  forall (s e : datetime) (l : list Flight.t) (x : Flight.t),
    group_flights s e (l ++ [x]) = count_flight s e (group_flights s e l) x.
Proof.
  intros s e l x. unfold group_flights. rewrite fold_left_app. reflexivity.
Qed.

Lemma minutes_sum_snoc :
  forall (s e : datetime) (l : list Flight.t) (x : Flight.t),
    minutes_sum s e (l ++ [x])
    = (minutes_sum s e l + calculate_inflight_time x s e)%Q.
Proof.
  intros s e l x. unfold minutes_sum. rewrite fold_left_app. reflexivity.
Qed.

Lemma existsb_false_filter :
  forall {A} (p : A -> bool) (l : list A),
    existsb p l = false -> filter p l = [].
Proof.
  intros A p l. induction l as [| a r IH]; simpl; [reflexivity |].
  destruct (p a); simpl; [discriminate | exact IH].
Qed.

Lemma filter_snoc :
  forall {A} (p : A -> bool) (l : list A) (x : A),
    filter p (l ++ [x]) = if p x then filter p l ++ [x] else filter p l.
Proof.
  intros A p l x. rewrite filter_app. simpl.
  destruct (p x); [reflexivity | apply app_nil_r].
Qed.

Lemma existsb_snoc :
  forall {A} (p : A -> bool) (l : list A) (x : A),
    existsb p (l ++ [x]) = existsb p l || p x.
Proof.
  intros A p l x. rewrite existsb_app. simpl. rewrite orb_false_r.
  reflexivity.
Qed.

Lemma group_spec_new :
  forall s e : datetime, group_spec s e [] new_stats.
Proof.
  intros s e. repeat split; simpl.
  - constructor.
  - intros a. rewrite andb_false_r. reflexivity.
Qed.

Lemma group_spec_step :
  forall (s e : datetime) (fl : list Flight.t) (x : Flight.t)
         (g : AirportStats),
    group_spec s e fl g ->
    group_spec s e (fl ++ [x]) (count_in_group s e x g).
Proof.
  intros s e fl x [c times tot] (Hc & Ht & Hnd & Hget). simpl in *.
  assert (Hlen : c + 1 = Z.of_nat (List.length (fl ++ [x]))).
  { rewrite length_app. simpl. lia. }
  unfold count_in_group, group_spec, times_spec. simpl.
  destruct (Flight.aircraft_id x) as [a |] eqn:Ha.
  - assert (Hx : forall a', flown_by a' x = (a =? a')).
    { intros a'. unfold flown_by. rewrite Ha. reflexivity. }
    assert (Hh : has_aircraft x = negb (a =? 0)).
    { unfold has_aircraft. rewrite Ha. reflexivity. }
    simpl. destruct (a =? 0) eqn:Ez; simpl.
    + (* the key is 0: the flight is only counted *)
      apply Z.eqb_eq in Ez. subst a.
      split; [exact Hlen |]. split.
      * rewrite filter_snoc, Hh. exact Ht.
      * split; [exact Hnd |]. intros a'. rewrite Hget.
        rewrite existsb_snoc, filter_snoc, Hx.
        destruct (a' =? 0) eqn:E0; [reflexivity |].
        rewrite Z.eqb_sym, E0, orb_false_r. reflexivity.
    + (* the flight is credited to its aircraft *)
      split; [exact Hlen |]. split.
      * rewrite filter_snoc, Hh. try rewrite Ez. simpl.
        rewrite minutes_sum_snoc, Ht. reflexivity.
      * split.
        { rewrite dict_keys_modify. unfold dict_mem.
          destruct (dict_get Z.eqb a times) eqn:G; simpl; [exact Hnd |].
          rewrite dict_keys_set. unfold dict_mem. rewrite G.
          apply (dict_keys_nodup_snoc _ Z.eqb_eq); assumption. }
        intros a'. rewrite existsb_snoc, filter_snoc, Hx.
        destruct (Z.eqb_spec a a') as [<- | Hne].
        -- rewrite Ez, orb_true_r. simpl.
           rewrite dict_get_modify_same, minutes_sum_snoc.
           pose proof (Hget a) as Hg. rewrite Ez in Hg. simpl in Hg.
           unfold dict_mem. rewrite Hg.
           destruct (existsb (flown_by a) fl) eqn:Ex; simpl.
           ++ rewrite Hg. reflexivity.
           ++ rewrite (dict_get_set _ Z.eqb_eq), Z.eqb_refl. simpl.
              rewrite (existsb_false_filter _ _ Ex). reflexivity.
        -- rewrite orb_false_r.
           rewrite (dict_get_modify_other _ Z.eqb_eq) by congruence.
           rewrite <- Hget. unfold dict_mem.
           destruct (dict_get Z.eqb a times); simpl; [reflexivity |].
           rewrite (dict_get_set _ Z.eqb_eq).
           destruct (Z.eqb_spec a' a); [congruence | reflexivity].
  - (* no aircraft: the flight is only counted *)
    assert (Hx : forall a', flown_by a' x = false).
    { intros a'. unfold flown_by. rewrite Ha. reflexivity. }
    assert (Hh : has_aircraft x = false).
    { unfold has_aircraft. rewrite Ha. reflexivity. }
    split; [exact Hlen |]. split.
    + rewrite filter_snoc, Hh. exact Ht.
    + split; [exact Hnd |]. intros a'. rewrite Hget.
      rewrite existsb_snoc, filter_snoc, Hx, orb_false_r. reflexivity.
Qed.

Lemma departing_snoc :
  forall (k : string) (l : list Flight.t) (x : Flight.t),
    departing k (l ++ [x])
    = if String.eqb k (Flight.departure_airport x)
      then departing k l ++ [x] else departing k l.
Proof.
  intros k l x. unfold departing. rewrite filter_snoc, String.eqb_sym.
  reflexivity.
Qed.

Lemma group_flights_spec :
  forall (s e : datetime) (l : list Flight.t),
    stats_spec s e l (group_flights s e l).
Proof.
  intros s e l. induction l as [| x l IH] using rev_ind.
  - split; [constructor | intros k; reflexivity].
  - destruct IH as [Hnd Hget]. rewrite group_flights_snoc. split.
    + rewrite count_flight_keys. unfold dict_mem.
      destruct (dict_get String.eqb (Flight.departure_airport x)
                         (group_flights s e l)) eqn:G; [exact Hnd |].
      apply (dict_keys_nodup_snoc _ String.eqb_eq); assumption.
    + intros k. rewrite count_flight_get, departing_snoc.
      destruct (String.eqb k (Flight.departure_airport x)) eqn:E.
      * apply String.eqb_eq in E. subst k. split.
        -- intros Hnil. apply app_eq_nil in Hnil. destruct Hnil; discriminate.
        -- apply group_spec_step.
           pose proof (Hget (Flight.departure_airport x)) as Hk.
           destruct (dict_get String.eqb (Flight.departure_airport x)
                              (group_flights s e l)); simpl.
           ++ apply Hk.
           ++ rewrite Hk. apply group_spec_new.
      * apply Hget.
Qed.

(** C5. When the loop of the report handles a selected flight whose
    [aircraft_id] is null, the entry of the flight's departure airport has
    its [flight_count] incremented, while its [total_flight_time] and its
    [aircraft_flight_times] stay as they were (for an airport seen for the
    first time: zero and empty); the entries of the other airports are not
    touched. *)
Theorem count_flight_without_aircraft :
  forall (start_time end_time : datetime) (stats : StatsDict) (x : Flight.t),
    Flight.aircraft_id x = None ->
    let g := group_or_new
               (dict_get String.eqb (Flight.departure_airport x) stats) in
    dict_get String.eqb (Flight.departure_airport x)
             (count_flight start_time end_time stats x)
    = Some (mkStats (flight_count g + 1) (aircraft_flight_times g)
                    (total_flight_time g))
    /\ (forall k, k <> Flight.departure_airport x ->
                  dict_get String.eqb k
                           (count_flight start_time end_time stats x)
                  = dict_get String.eqb k stats).
Proof.
  intros s e stats x Ha g. split.
  - rewrite count_flight_get, String.eqb_refl. unfold count_in_group.
    rewrite Ha. reflexivity.
  - intros k Hk. rewrite count_flight_get.
    destruct (String.eqb_spec k (Flight.departure_airport x));
      [contradiction | reflexivity].
Qed.

Lemma count_flight_without_aircraft_witness :
  dict_get String.eqb "KJFK"
    (count_flight (at_time "2030-01-01T12:00:00")
       (at_time "2030-01-01T18:00:00")
       (group_flights (at_time "2030-01-01T12:00:00")
          (at_time "2030-01-01T18:00:00") [flight_touching])
       flight_unassigned)
  = Some (mkStats 2 [(1, 0%Q)] 0%Q).
Proof.
  apply (proj1 (count_flight_without_aircraft
                  (at_time "2030-01-01T12:00:00")
                  (at_time "2030-01-01T18:00:00")
                  (group_flights (at_time "2030-01-01T12:00:00")
                     (at_time "2030-01-01T18:00:00") [flight_touching])
                  flight_unassigned eq_refl)).
Defined.

(** ** Counting the flights of the groups *)









(** Every entry of [stats] describes the flights of its airport. *)
Lemma stats_entry_spec :
  forall (s e : datetime) (l : list Flight.t) (stats : StatsDict)
         (k : string) (g : AirportStats),
    stats_spec s e l stats -> In (k, g) stats ->
    departing k l <> [] /\ group_spec s e (departing k l) g.
Proof.
  intros s e l stats k g [Hnd Hget] Hin.
  pose proof (Hget k) as Hk.
  rewrite (dict_in_get _ String.eqb_eq k g stats Hnd Hin) in Hk. exact Hk.
Qed.

(** ** The report *)


Lemma format_airport_spec :
  forall (d : Db) (s e : datetime) (l : list Flight.t) (stats : StatsDict),
    stats_spec s e l stats ->
    Forall (airport_data_spec s e l) (map (format_airport d) stats).
Proof.
  intros d s e l stats Hspec. apply Forall_forall. intros g Hg.
  apply in_map_iff in Hg. destruct Hg as [[k st] [<- Hin]].
  destruct (stats_entry_spec s e l stats k st Hspec Hin)
    as (Hne & Hc & Ht & Hnd & Hget).
  unfold airport_data_spec. simpl.
  assert (Hpos : (flight_count st >? 0) = true).
  { apply Z.gtb_lt. rewrite Hc. destruct (departing k l); [contradiction |].
    simpl. lia. }
  repeat split; try assumption.
  - rewrite Hpos, Ht. reflexivity.
  - apply Forall_forall. intros t Ht'. apply in_map_iff in Ht'.
    destruct Ht' as [[a m] [<- Hm]]. simpl.
    pose proof (Hget a) as Ha.
    rewrite (dict_in_get _ Z.eqb_eq a m _ Hnd Hm) in Ha.
    destruct (negb (a =? 0) && existsb (flown_by a) (departing k l));
      [| discriminate].
    injection Ha as ->. reflexivity.
Qed.


Lemma valid_window_inv `{IsoFormat} :
  forall (args : StatsArgs.t) (start_time end_time : datetime),
    valid_window args = Some (start_time, end_time) ->
    exists c1 s1 c2 s2,
      args = StatsArgs.make (Some (String c1 s1)) (Some (String c2 s2))
      /\ parse_datetime (String c1 s1) = Some start_time
      /\ parse_datetime (String c2 s2) = Some end_time
      /\ start_time < end_time.
Proof.
  intros [[[|c1 s1]|] [[|c2 s2]|]] start_time end_time; unfold valid_window;
    simpl; try discriminate.
  destruct (parse_datetime (String c1 s1)) as [t1 |] eqn:P1; [| discriminate].
  destruct (parse_datetime (String c2 s2)) as [t2 |] eqn:P2; [| discriminate].
  destruct (Z.ltb_spec t1 t2); [| discriminate].
  intros [= <- <-]. exists c1, s1, c2, s2. auto.
Qed.



(** ** Flights that touch the window without overlapping it *)

Lemma minutes_sum_acc :
  forall (s e : datetime) (l : list Flight.t) (acc : Q),
    (fold_left (fun a f => a + calculate_inflight_time f s e) l acc
     == acc + minutes_sum s e l)%Q.
Proof.
  intros s e l. unfold minutes_sum.
  induction l as [| y l IH]; intros acc; simpl.
  - ring.
  - rewrite (IH (acc + _)%Q), (IH (0 + _)%Q). ring.
Qed.


Lemma minutes_sum_cons :
  forall (s e : datetime) (x : Flight.t) (l : list Flight.t),
    (minutes_sum s e (x :: l)
     == calculate_inflight_time x s e + minutes_sum s e l)%Q.
Proof.
  intros s e x l. unfold minutes_sum at 1. simpl.
  rewrite minutes_sum_acc. ring.
Qed.







(** A flight can be stored with [aircraft_id] 0: [create_flight] looks the
    aircraft up only when the identifier is true as a Python value. *)
Lemma create_flight_stores_zero_id :
  @serve iso_basic_format (at_time "2029-01-01T00:00:00")
         (CreateFlight zero_id_body) (mkDb [] [])
  = (Success 201 (Some "Flight created successfully")
       (FlightData (flight_to_dict zero_id_db flight_zero_id)),
     zero_id_db).
Proof. vm_compute. reflexivity. Qed.


(** ** Updating a flight *)

(** C1 fails on [update_flight]. A request that carries a new
    [departure_time] and nothing else is checked against the clock only:
    on the sample store it is accepted although the new departure is after
    the stored arrival, and the stored flight ends with
    [arrival_time < departure_time]. *)
Theorem update_flight_departure_only_breaks_order :
  Flight.departure_time flight_touching < Flight.arrival_time flight_touching
  /\ flight_get 1 sample_db = Some flight_touching
  /\ exists db' f',
       @serve iso_basic_format sample_now (UpdateFlight 1 late_departure_body)
              sample_db
       = (Success 200 (Some "Flight updated successfully")
            (FlightData (flight_to_dict db' f')), db')
       /\ flight_get 1 db' = Some f'
       /\ Flight.departure_time f' = at_time "2030-01-02T10:00:00"
       /\ Flight.arrival_time f' = Flight.arrival_time flight_touching
       /\ Flight.arrival_time f' < Flight.departure_time f'.
Proof.
  split; [vm_compute; reflexivity |]. split; [reflexivity |].
  exists (write_flight
            (Flight.set_departure_time (at_time "2030-01-02T10:00:00")
                                       flight_touching) sample_db),
    (Flight.set_departure_time (at_time "2030-01-02T10:00:00")
                               flight_touching).
  repeat split; vm_compute; reflexivity.
Qed.

(** The sibling path: a request that carries an [arrival_time] is checked
    against the departure the flight will have, so an accepted one leaves
    the stored flight with its departure before its arrival. *)

Lemma flight_get_some :
  forall (i : Z) (d : Db) (f : Flight.t),
    flight_get i d = Some f -> Flight.id f = i.
Proof.
  intros i d f Hg. apply find_some in Hg. apply Z.eqb_eq. apply Hg.
Qed.

Lemma flight_get_write :
  forall (i : Z) (f : Flight.t) (d : Db),
    is_some (flight_get i d) = true -> Flight.id f = i ->
    flight_get i (write_flight f d) = Some f.
Proof.
  intros i f [rows fl]. unfold flight_get. simpl. intros Hs Hi.
  subst i. revert Hs.
  induction fl as [| r rest IH]; simpl; [discriminate |].
  destruct (Flight.id r =? Flight.id f) eqn:E; simpl.
  - rewrite Z.eqb_refl. reflexivity.
  - rewrite E. exact IH.
Qed.

Lemma flight_get_write_some :
  forall (i : Z) (f : Flight.t) (d : Db),
    is_some (flight_get i d) = true -> Flight.id f = i ->
    is_some (flight_get i (write_flight f d)) = true.
Proof.
  intros i f d Hs Hi. rewrite (flight_get_write i f d Hs Hi). reflexivity.
Qed.

Ltac update_flight_case :=
  first
    [ discriminate
    | progress cbv beta iota delta [negb is_some]
    | match goal with
      | |- context [validate_icao_code ?x] => destruct (validate_icao_code x)
      | |- context [parse_datetime ?x] =>
          destruct (parse_datetime x) eqn:?
      | |- context [?a <=? ?b] => destruct (Z.leb_spec a b)
      | |- context [aircraft_get ?n ?d] => destruct (aircraft_get n d)
      end ].

(** X24. An update of a flight that carries an [arrival_time] and is
    accepted leaves that flight stored with its departure before its
    arrival, whatever else the request carries. *)
Lemma update_flight_with_arrival_keeps_order `{IsoFormat} :
  forall (now : datetime) (i : Z) (data : FlightBody.t) (s s' : Session)
         (arrival_str : string) (code : Z) (msg : option string)
         (payload : Payload),
    FlightBody.arrival_time data = Some arrival_str ->
    run (update_flight now i data) s = (Success code msg payload, s') ->
    exists f',
      flight_get i (stored s') = Some f'
      /\ Flight.departure_time f' < Flight.arrival_time f'.
Proof.
  intros now i [da aa dt at_ aid] [st sg] s' arrival_str code msg payload Harr.
  simpl in Harr. subst at_.
  unfold update_flight. unfold_view.
  cbn [FlightBody.departure_airport FlightBody.arrival_airport
       FlightBody.departure_time FlightBody.arrival_time
       FlightBody.aircraft_id].
  destruct (flight_get i sg) as [f |] eqn:G; [| discriminate].
  pose proof (flight_get_some i sg f G) as Hid.
  assert (Hs : is_some (flight_get i sg) = true) by (rewrite G; reflexivity).
  destruct dt as [dt |], da as [da |], aa as [aa |], aid as [[n |] |];
    repeat update_flight_case;
    intros [= _ _ _ <-]; cbn [stored];
    eexists;
    (split;
     [ repeat first [ apply flight_get_write
                    | apply flight_get_write_some
                    | exact Hs | exact Hid ]
     | simpl; lia ]).
Qed.

(** ** Requests that fail *)

Lemma quiet_pure : forall {A} (a : A), quiet (pure a).
Proof. intros A a s. reflexivity. Qed.

Lemma quiet_respond : forall {A} (r : Response), quiet (@respond A r).
Proof. intros A r s. reflexivity. Qed.

Lemma quiet_query : forall {A} (f : Db -> A), quiet (query f).
Proof. intros A f s. reflexivity. Qed.

Lemma quiet_stage : forall f : Db -> Db, quiet (stage f).
Proof. intros f s. reflexivity. Qed.

Lemma quiet_bind :
  forall {A B} (m : View A) (k : A -> View B),
    quiet m -> (forall a, quiet (k a)) -> quiet (bind m k).
Proof.
  intros A B m k Hm Hk s. unfold bind. specialize (Hm s).
  destruct (m s) as [[a | r] s']; simpl in *.
  - rewrite Hk. exact Hm.
  - exact Hm.
Qed.

Lemma quiet_return_if :
  forall (cond : bool) (r : Response), quiet (return_if cond r).
Proof. intros [|] r s; reflexivity. Qed.

Lemma quiet_getitem : forall {A} (o : option A), quiet (getitem o).
Proof. intros A [a |] s; reflexivity. Qed.

Lemma quiet_get_or_404 : forall {A} (f : Db -> option A), quiet (get_or_404 f).
Proof.
  intros A f. unfold get_or_404. apply quiet_bind; [apply quiet_query |].
  intros [a |]; [apply quiet_pure | apply quiet_respond].
Qed.

Lemma quiet_setattr_flight : forall f : Flight.t, quiet (setattr_flight f).
Proof. intros f s. reflexivity. Qed.

Lemma quiet_setattr_aircraft :
  forall a : Aircraft.t, quiet (setattr_aircraft a).
Proof. intros a s. reflexivity. Qed.

Lemma quiet_add_flight :
  forall (dep arr : string) (dt at_ : datetime) (aid : option Z),
    quiet (add_flight dep arr dt at_ aid).
Proof. intros dep arr dt at_ aid s. reflexivity. Qed.

Lemma quiet_add_aircraft :
  forall serial manuf : string, quiet (add_aircraft serial manuf).
Proof. intros serial manuf s. reflexivity. Qed.

Lemma safe_bind :
  forall {A} (m : View A) (k : A -> View Response),
    quiet m -> (forall a, safe (k a)) -> safe (bind m k).
Proof.
  intros A m k Hm Hk s. unfold run, bind. specialize (Hm s).
  destruct (m s) as [[a | r] s']; simpl in *.
  - intros Hf. specialize (Hk a s'). unfold run in Hk.
    rewrite <- Hm. apply Hk. exact Hf.
  - intros _. exact Hm.
Qed.

Lemma safe_quiet : forall v : View Response, quiet v -> safe v.
Proof.
  intros v Hv s _. specialize (Hv s). unfold run.
  destruct (v s) as [[r | r] s']; exact Hv.
Qed.

Lemma safe_succeeds : forall v : View Response, succeeds v -> safe v.
Proof. intros v Hv s Hf. rewrite Hv in Hf. discriminate. Qed.

(** One step of a proof that a handler is quiet up to its commit. *)
Ltac quiet_step :=
  match goal with
  | |- quiet (pure _) => apply quiet_pure
  | |- quiet (respond _) => apply quiet_respond
  | |- quiet (query _) => apply quiet_query
  | |- quiet (stage _) => apply quiet_stage
  | |- quiet (return_if _ _) => apply quiet_return_if
  | |- quiet (getitem _) => apply quiet_getitem
  | |- quiet (get_or_404 _) => apply quiet_get_or_404
  | |- quiet (setattr_flight _) => apply quiet_setattr_flight
  | |- quiet (setattr_aircraft _) => apply quiet_setattr_aircraft
  | |- quiet (add_flight _ _ _ _ _) => apply quiet_add_flight
  | |- quiet (add_aircraft _ _) => apply quiet_add_aircraft
  | |- quiet (bind _ _) => apply quiet_bind; [| intros ?]
  | |- quiet (match ?x with _ => _ end) => destruct x
  | |- quiet (let _ := _ in _) => cbv zeta
  end.

Ltac quiet_tac := repeat quiet_step.

(** A handler whose steps are quiet up to a commit that only a success
    follows. *)
Ltac safe_step :=
  match goal with
  | |- safe (bind commit _) => apply safe_succeeds; intros ?; reflexivity
  | |- safe (bind _ _) => apply safe_bind; [quiet_tac | intros ?]
  | |- safe (match ?x with _ => _ end) => destruct x
  | |- safe (let _ := _ in _) => cbv zeta
  | |- safe (respond _) => apply safe_quiet; apply quiet_respond
  | |- safe (pure _) => apply safe_quiet; apply quiet_pure
  end.

Ltac safe_tac := repeat safe_step.

Lemma create_aircraft_safe : forall data, safe (create_aircraft data).
Proof. intros data. unfold create_aircraft. safe_tac. Qed.

Lemma update_aircraft_safe : forall i data, safe (update_aircraft i data).
Proof. intros i data. unfold update_aircraft. safe_tac. Qed.

Lemma delete_aircraft_safe : forall i, safe (delete_aircraft i).
Proof. intros i. unfold delete_aircraft. safe_tac. Qed.

Section FailingRequests.
Context `{IsoFormat}.

Lemma get_flights_safe : forall args, safe (get_flights args).
Proof. intros args. unfold get_flights. safe_tac. Qed.

Lemma create_flight_safe : forall now data, safe (create_flight now data).
Proof. intros now data. unfold create_flight. safe_tac. Qed.

Lemma update_flight_safe :
  forall now i data, safe (update_flight now i data).
Proof. intros now i data. unfold update_flight. safe_tac. Qed.

Lemma delete_flight_safe : forall i, safe (delete_flight i).
Proof. intros i. unfold delete_flight. safe_tac. Qed.

Lemma assign_aircraft_to_flight_safe :
  forall f a, safe (assign_aircraft_to_flight f a).
Proof. intros f a. unfold assign_aircraft_to_flight. safe_tac. Qed.

Lemma flight_statistics_safe : forall args, safe (flight_statistics args).
Proof. intros args. unfold flight_statistics. safe_tac. Qed.

Lemma view_function_safe :
  forall (now : datetime) (req : Request), safe (view_function now req).
Proof.
  intros now [| i | data | i data | i | args | i | data | i data | i | f a
              | args]; simpl.
  - unfold get_aircraft. safe_tac.
  - unfold get_aircraft_by_id. safe_tac.
  - apply create_aircraft_safe.
  - apply update_aircraft_safe.
  - apply delete_aircraft_safe.
  - apply get_flights_safe.
  - unfold get_flight_by_id. safe_tac.
  - apply create_flight_safe.
  - apply update_flight_safe.
  - apply delete_flight_safe.
  - apply assign_aircraft_to_flight_safe.
  - apply flight_statistics_safe.
Qed.

(** C2. A request that is not answered with a success leaves the stored
    database as it was, whatever the handler staged before it returned.  In
    particular an update of a flight that carries a good new
    [departure_time] and a malformed [arrival_airport] is answered with
    status 400 and the stored flight keeps its departure time. *)
Theorem failed_request_changes_nothing :
  (forall (now : datetime) (req : Request) (d : Db),
      is_success (fst (serve now req d)) = false ->
      snd (serve now req d) = d)
  /\ (forall (now : datetime) (flight_id : Z) (d : Db) (flight : Flight.t)
             (departure_str arrival_airport : string) (t : datetime),
         flight_get flight_id d = Some flight ->
         parse_datetime departure_str = Some t ->
         now < t ->
         validate_icao_code arrival_airport = false ->
         serve now
               (UpdateFlight flight_id
                  (FlightBody.make None (Some arrival_airport)
                                   (Some departure_str) None None)) d
         = (Error 400 ("Invalid arrival airport ICAO code: "
                       ++ arrival_airport)%string, d)
         /\ flight_get flight_id
                       (snd (serve now
                               (UpdateFlight flight_id
                                  (FlightBody.make None (Some arrival_airport)
                                     (Some departure_str) None None)) d))
            = Some flight).
Proof.
  split.
  - intros now req d Hf. pose proof (view_function_safe now req (begin d)) as Hs.
    unfold serve in *.
    destruct (run (view_function now req) (begin d)) as [r s'].
    simpl in *. apply Hs. exact Hf.
  - intros now flight_id d flight departure_str arrival_airport t
           Hget Hparse Hnow Hicao.
    assert (Hserve :
              serve now
                (UpdateFlight flight_id
                   (FlightBody.make None (Some arrival_airport)
                                    (Some departure_str) None None)) d
              = (Error 400 ("Invalid arrival airport ICAO code: "
                            ++ arrival_airport)%string, d)).
    { unfold serve, view_function, update_flight. unfold_view.
      cbn [FlightBody.departure_time FlightBody.arrival_time
           FlightBody.departure_airport FlightBody.arrival_airport
           FlightBody.aircraft_id].
      rewrite Hget, Hparse.
      destruct (Z.leb_spec t now); [lia |].
      rewrite Hicao. reflexivity. }
    split; [exact Hserve |]. rewrite Hserve. exact Hget.
Qed.
End FailingRequests.

Lemma failed_request_changes_nothing_witness :
  snd (@serve iso_basic_format sample_now (UpdateFlight 1 bad_airport_body)
              sample_db)
  = sample_db.
Proof.
  apply (proj1 (@failed_request_changes_nothing iso_basic_format)).
  vm_compute. reflexivity.
Defined.

(** The same request inside its session: when the handler returns, the new
    departure time is staged and the stored image is the old one. *)
Lemma update_flight_stages_before_failing :
  exists s',
    run (@update_flight iso_basic_format sample_now 1 bad_airport_body)
        (begin sample_db)
    = (Error 400 "Invalid arrival airport ICAO code: EG1L", s')
    /\ stored s' = sample_db
    /\ option_map Flight.departure_time (flight_get 1 (staged s'))
       = Some (at_time "2030-01-01T09:00:00")
    /\ option_map Flight.departure_time (flight_get 1 (stored s'))
       = Some (at_time "2030-01-01T10:00:00").
Proof.
  eexists. split; [vm_compute; reflexivity |].
  repeat split.
Qed.

(** ** Creating a flight *)



Section CreateFlight.
Context `{IsoFormat}.


End CreateFlight.



(** ** Serial numbers *)

Lemma next_id_bound :
  forall (ids : list Z) (x : Z), In x ids -> x < next_id ids.
Proof.
  intros ids x. unfold next_id.
  induction ids as [| y ids IH]; cbn [fold_right In]; [tauto |].
  intros [-> | Hin]; [lia |]. specialize (IH Hin). lia.
Qed.

Lemma next_id_fresh : forall ids : list Z, ~ In (next_id ids) ids.
Proof. intros ids Hin. apply next_id_bound in Hin. lia. Qed.

Lemma NoDup_map_eq :
  forall {A B} (f : A -> B) (l : list A) (x y : A),
    NoDup (map f l) -> In x l -> In y l -> f x = f y -> x = y.
Proof.
  intros A B f l x y. induction l as [| a l IH]; simpl; [tauto |].
  intros Hnd Hx Hy Hf. inversion Hnd as [| ? ? Hnotin Hnd']; subst.
  destruct Hx as [-> | Hx], Hy as [-> | Hy].
  - reflexivity.
  - exfalso. apply Hnotin. rewrite Hf. apply in_map. exact Hy.
  - exfalso. apply Hnotin. rewrite <- Hf. apply in_map. exact Hx.
  - apply IH; assumption.
Qed.

Lemma aircraft_get_some :
  forall (i : Z) (d : Db) (a : Aircraft.t),
    aircraft_get i d = Some a -> In a (aircraft_table d) /\ Aircraft.id a = i.
Proof.
  intros i d a Hg. apply find_some in Hg. destruct Hg as [Hin Heq].
  split; [exact Hin | apply Z.eqb_eq; exact Heq].
Qed.

Lemma aircraft_by_serial_some :
  forall (serial : string) (d : Db) (a : Aircraft.t),
    aircraft_by_serial serial d = Some a ->
    In a (aircraft_table d) /\ Aircraft.serial_number a = serial.
Proof.
  intros serial d a Hg. apply find_some in Hg. destruct Hg as [Hin Heq].
  split; [exact Hin | apply String.eqb_eq; exact Heq].
Qed.

Lemma aircraft_by_serial_none :
  forall (serial : string) (d : Db),
    aircraft_by_serial serial d = None ->
    ~ In serial (map Aircraft.serial_number (aircraft_table d)).
Proof.
  intros serial d Hg Hin. apply in_map_iff in Hin.
  destruct Hin as [r [Hs Hr]].
  pose proof (find_none _ _ Hg r Hr) as Hf. simpl in Hf.
  rewrite Hs, String.eqb_refl in Hf. discriminate.
Qed.

(** What the check of [update_aircraft] establishes. *)
Lemma serial_free_checked :
  forall (serial : string) (i : Z) (d : Db),
    wf_aircraft d ->
    match aircraft_by_serial serial d with
    | Some e => negb (Aircraft.id e =? i)
    | None => false
    end = false ->
    serial_free serial i d.
Proof.
  intros serial i d [_ Hser] Hchk r Hr Hid Hs.
  destruct (aircraft_by_serial serial d) as [e |] eqn:G.
  - apply aircraft_by_serial_some in G. destruct G as [He Hes].
    assert (r = e) by (apply (NoDup_map_eq Aircraft.serial_number
                                (aircraft_table d)); congruence).
    subst r. apply negb_false_iff, Z.eqb_eq in Hchk. contradiction.
  - apply aircraft_by_serial_none in G. apply G. rewrite <- Hs.
    apply in_map. exact Hr.
Qed.

(** The serial number an aircraft already has is free for it. *)
Lemma serial_free_own :
  forall (i : Z) (d : Db) (a : Aircraft.t),
    wf_aircraft d -> aircraft_get i d = Some a ->
    serial_free (Aircraft.serial_number a) i d.
Proof.
  intros i d a [_ Hser] Hg r Hr Hid Hs.
  apply aircraft_get_some in Hg. destruct Hg as [Ha Hai].
  assert (r = a) by (apply (NoDup_map_eq Aircraft.serial_number
                              (aircraft_table d)); assumption).
  subst r. contradiction.
Qed.

Lemma NoDup_snoc :
  forall {A} (l : list A) (x : A), NoDup l -> ~ In x l -> NoDup (l ++ [x]).
Proof.
  intros A l x Hnd Hx. apply NoDup_app; [exact Hnd | repeat constructor |].
  - simpl. tauto.
  - intros y Hy [<- | []]. exact (Hx Hy).
Qed.

Lemma insert_aircraft_wf :
  forall (serial manuf : string) (d : Db),
    wf_aircraft d -> aircraft_by_serial serial d = None ->
    wf_aircraft (snd (insert_aircraft serial manuf d)).
Proof.
  intros serial manuf d [Hid Hser] Hnone. unfold wf_aircraft. simpl.
  rewrite !map_app. simpl. split; apply NoDup_snoc; try assumption.
  - apply next_id_fresh.
  - apply aircraft_by_serial_none. exact Hnone.
Qed.

Lemma write_aircraft_ids :
  forall (a : Aircraft.t) (d : Db),
    map Aircraft.id (aircraft_table (write_aircraft a d))
    = map Aircraft.id (aircraft_table d).
Proof.
  intros a d. simpl. rewrite map_map. apply map_ext. intros r.
  destruct (Z.eqb_spec (Aircraft.id r) (Aircraft.id a)); congruence.
Qed.

Lemma write_aircraft_serials :
  forall (a : Aircraft.t) (rows : list Aircraft.t),
    NoDup (map Aircraft.id rows) ->
    NoDup (map Aircraft.serial_number rows) ->
    (forall r, In r rows -> Aircraft.id r <> Aircraft.id a ->
               Aircraft.serial_number r <> Aircraft.serial_number a) ->
    NoDup (map Aircraft.serial_number
               (map (fun r => if Aircraft.id r =? Aircraft.id a then a else r)
                    rows)).
Proof.
  intros a rows. induction rows as [| r0 rest IH]; simpl; [constructor |].
  intros Hid Hser Hfree.
  inversion Hid as [| ? ? Hid0 Hid']; subst.
  inversion Hser as [| ? ? Hser0 Hser']; subst.
  constructor.
  - intros Hin. apply in_map_iff in Hin. destruct Hin as [r' [Hs Hr']].
    apply in_map_iff in Hr'. destruct Hr' as [r [<- Hr]].
    assert (Hne : Aircraft.id r <> Aircraft.id r0).
    { intros Heq. apply Hid0. rewrite <- Heq. apply in_map. exact Hr. }
    destruct (Z.eqb_spec (Aircraft.id r0) (Aircraft.id a)) as [E0 | E0];
      destruct (Z.eqb_spec (Aircraft.id r) (Aircraft.id a)) as [E | E].
    + congruence.
    + apply (Hfree r); [right; exact Hr | exact E | exact Hs].
    + apply (Hfree r0); [left; reflexivity | exact E0 | congruence].
    + apply Hser0. rewrite <- Hs. apply in_map. exact Hr.
  - apply IH; try assumption. intros r Hr. apply Hfree. right. exact Hr.
Qed.

Lemma write_aircraft_wf :
  forall (a : Aircraft.t) (d : Db),
    wf_aircraft d ->
    serial_free (Aircraft.serial_number a) (Aircraft.id a) d ->
    wf_aircraft (write_aircraft a d).
Proof.
  intros a d [Hid Hser] Hfree. split.
  - rewrite write_aircraft_ids. exact Hid.
  - apply write_aircraft_serials; assumption.
Qed.

Lemma write_aircraft_free :
  forall (a : Aircraft.t) (d : Db),
    serial_free (Aircraft.serial_number a) (Aircraft.id a) d ->
    serial_free (Aircraft.serial_number a) (Aircraft.id a)
                (write_aircraft a d).
Proof.
  intros a d Hfree r' Hr' Hid. simpl in Hr'. apply in_map_iff in Hr'.
  destruct Hr' as [r [<- Hr]].
  destruct (Z.eqb_spec (Aircraft.id r) (Aircraft.id a)) as [E | E];
    [contradiction |].
  apply Hfree; assumption.
Qed.

Lemma aircraft_get_write :
  forall (i : Z) (a : Aircraft.t) (d : Db),
    is_some (aircraft_get i d) = true -> Aircraft.id a = i ->
    aircraft_get i (write_aircraft a d) = Some a.
Proof.
  intros i a [rows fl]. unfold aircraft_get. simpl. intros Hs Hi.
  subst i. revert Hs.
  induction rows as [| r rest IH]; simpl; [discriminate |].
  destruct (Aircraft.id r =? Aircraft.id a) eqn:E; simpl.
  - rewrite Z.eqb_refl. reflexivity.
  - rewrite E. exact IH.
Qed.

Lemma create_aircraft_wf :
  forall (data : AircraftBody.t) (d : Db),
    wf_aircraft d ->
    wf_aircraft (stored (snd (run (create_aircraft data) (begin d)))).
Proof.
  intros [[serial |] [manuf |]] d Hwf; unfold create_aircraft; unfold_view;
    cbn [AircraftBody.serial_number AircraftBody.manufacturer is_some negb
         orb snd]; try exact Hwf.
  destruct (aircraft_by_serial serial d) eqn:E; cbn [is_some snd];
    [exact Hwf |].
  apply (insert_aircraft_wf serial manuf d Hwf E).
Qed.

Lemma update_aircraft_wf :
  forall (i : Z) (data : AircraftBody.t) (d : Db),
    wf_aircraft d ->
    wf_aircraft (stored (snd (run (update_aircraft i data) (begin d)))).
Proof.
  intros i [serial manuf] d Hwf. unfold update_aircraft. unfold_view.
  cbn [AircraftBody.serial_number AircraftBody.manufacturer].
  destruct (aircraft_get i d) as [a |] eqn:G; cbn [snd]; [| exact Hwf].
  destruct (aircraft_get_some i d a G) as [Ha Hai].
  destruct serial as [serial |].
  - destruct (match aircraft_by_serial serial d with
              | Some e => negb (Aircraft.id e =? i)
              | None => false
              end) eqn:Chk; cbn [snd]; [exact Hwf |].
    pose proof (serial_free_checked serial i d Hwf Chk) as Hfree.
    assert (Hfree1 : serial_free
                       (Aircraft.serial_number
                          (Aircraft.set_serial_number serial a))
                       (Aircraft.id (Aircraft.set_serial_number serial a)) d).
    { simpl. rewrite Hai. exact Hfree. }
    pose proof (write_aircraft_wf _ d Hwf Hfree1) as Hwf1.
    destruct manuf as [manuf |]; cbn [snd]; [| exact Hwf1].
    apply write_aircraft_wf; [exact Hwf1 |].
    apply (write_aircraft_free (Aircraft.set_serial_number serial a) d Hfree1).
  - destruct manuf as [manuf |]; cbn [snd]; [| exact Hwf].
    apply write_aircraft_wf; [exact Hwf |]. simpl. rewrite Hai.
    apply serial_free_own; assumption.
Qed.

Lemma update_aircraft_conflict :
  forall (i : Z) (data : AircraftBody.t) (d : Db) (msg : string)
         (s' : Session),
    run (update_aircraft i data) (begin d) = (Error 409 msg, s') ->
    exists serial other,
      AircraftBody.serial_number data = Some serial
      /\ In other (aircraft_table d)
      /\ Aircraft.serial_number other = serial
      /\ Aircraft.id other <> i.
Proof.
  intros i [serial manuf] d msg s'. unfold update_aircraft. unfold_view.
  cbn [AircraftBody.serial_number AircraftBody.manufacturer].
  destruct (aircraft_get i d) as [a |]; [| discriminate].
  destruct serial as [serial |];
    [| destruct manuf; discriminate].
  destruct (aircraft_by_serial serial d) as [e |] eqn:E;
    [| destruct manuf; discriminate].
  destruct (Z.eqb_spec (Aircraft.id e) i) as [Heq | Hne]; cbn [negb];
    [destruct manuf; discriminate |].
  intros _. apply aircraft_by_serial_some in E. destruct E as [He Hs].
  exists serial, e. auto.
Qed.

Lemma update_aircraft_accepts :
  forall (i : Z) (a : Aircraft.t) (serial : string) (manuf : option string)
         (d : Db),
    wf_aircraft d ->
    aircraft_get i d = Some a ->
    serial = Aircraft.serial_number a \/ aircraft_by_serial serial d = None ->
    exists a' d',
      run (update_aircraft i (AircraftBody.make (Some serial) manuf)) (begin d)
      = (Success 200 (Some "Aircraft updated successfully") (AircraftData a'),
         mkSession d' d')
      /\ Aircraft.id a' = i
      /\ Aircraft.serial_number a' = serial
      /\ aircraft_get i d' = Some a'.
Proof.
  intros i a serial manuf d Hwf G Hok.
  destruct (aircraft_get_some i d a G) as [Ha Hai].
  assert (Chk : match aircraft_by_serial serial d with
                | Some e => negb (Aircraft.id e =? i)
                | None => false
                end = false).
  { destruct Hok as [-> | ->]; [| reflexivity].
    destruct (aircraft_by_serial (Aircraft.serial_number a) d) as [e |] eqn:E;
      [| reflexivity].
    apply aircraft_by_serial_some in E. destruct E as [He Hs].
    assert (e = a) by (apply (NoDup_map_eq Aircraft.serial_number
                                (aircraft_table d)); try assumption;
                       apply Hwf).
    subst e. rewrite Hai, Z.eqb_refl. reflexivity. }
  assert (G1 : aircraft_get i (write_aircraft
                                 (Aircraft.set_serial_number serial a) d)
               = Some (Aircraft.set_serial_number serial a)).
  { apply aircraft_get_write; [rewrite G; reflexivity | exact Hai]. }
  unfold update_aircraft. unfold_view.
  cbn [AircraftBody.serial_number AircraftBody.manufacturer].
  rewrite G, Chk. destruct manuf as [manuf |].
  - exists (Aircraft.set_manufacturer manuf
              (Aircraft.set_serial_number serial a)),
      (write_aircraft (Aircraft.set_manufacturer manuf
                         (Aircraft.set_serial_number serial a))
         (write_aircraft (Aircraft.set_serial_number serial a) d)).
    repeat split; try exact Hai.
    apply aircraft_get_write; [rewrite G1; reflexivity | exact Hai].
  - exists (Aircraft.set_serial_number serial a),
      (write_aircraft (Aircraft.set_serial_number serial a) d).
    repeat split; try exact Hai. exact G1.
Qed.

(** C9. On a store whose aircraft have pairwise different keys and serial
    numbers, every [create_aircraft] and every [update_aircraft] leaves
    such a store; [update_aircraft] answers 409 only when the serial number
    of the request belongs to an aircraft with another key; and an update
    of an existing aircraft with its own serial number, or with one that no
    aircraft has, is accepted and stores that serial number. *)
Theorem aircraft_serial_numbers_stay_unique :
  forall d : Db,
    wf_aircraft d ->
    (forall data,
        wf_aircraft (stored (snd (run (create_aircraft data) (begin d)))))
    /\ (forall i data,
           wf_aircraft (stored (snd (run (update_aircraft i data) (begin d)))))
    /\ (forall i data msg s',
           run (update_aircraft i data) (begin d) = (Error 409 msg, s') ->
           exists serial other,
             AircraftBody.serial_number data = Some serial
             /\ In other (aircraft_table d)
             /\ Aircraft.serial_number other = serial
             /\ Aircraft.id other <> i)
    /\ (forall i a serial manuf,
           aircraft_get i d = Some a ->
           serial = Aircraft.serial_number a
           \/ aircraft_by_serial serial d = None ->
           exists a' d',
             run (update_aircraft i (AircraftBody.make (Some serial) manuf))
                 (begin d)
             = (Success 200 (Some "Aircraft updated successfully")
                  (AircraftData a'), mkSession d' d')
             /\ Aircraft.id a' = i
             /\ Aircraft.serial_number a' = serial
             /\ aircraft_get i d' = Some a').
Proof.
  intros d Hwf. split; [| split; [| split]].
  - intros data. apply create_aircraft_wf. exact Hwf.
  - intros i data. apply update_aircraft_wf. exact Hwf.
  - intros i data msg s'. apply update_aircraft_conflict.
  - intros i a serial manuf. apply update_aircraft_accepts. exact Hwf.
Qed.

Lemma aircraft_serial_numbers_stay_unique_witness :
  exists a' d',
    run (update_aircraft 1 (AircraftBody.make (Some "TEST001") None))
        (begin sample_db)
    = (Success 200 (Some "Aircraft updated successfully") (AircraftData a'),
       mkSession d' d')
    /\ Aircraft.id a' = 1
    /\ Aircraft.serial_number a' = "TEST001"
    /\ aircraft_get 1 d' = Some a'.
Proof.
  assert (Hwf : wf_aircraft sample_db).
  { split; simpl; repeat constructor; simpl; intuition discriminate. }
  apply (proj2 (proj2 (proj2 (aircraft_serial_numbers_stay_unique
                                sample_db Hwf)))
           1 (Aircraft.make 1 "TEST001" "Airbus") "TEST001" None eq_refl).
  left. reflexivity.
Defined.

(** The conflict itself: aircraft 1 cannot take the serial number of
    aircraft 2. *)
Lemma update_aircraft_conflict_example :
  run (update_aircraft 1 (AircraftBody.make (Some "TEST002") None))
      (begin sample_db)
  = (Error 409 "Aircraft with serial number 'TEST002' already exists",
     begin sample_db).
Proof. vm_compute. reflexivity. Qed.

(* ================================================================= *)
(** * Further properties of the code *)

(** ** Airport codes *)











(** ** Bounds on the in-flight time *)

Lemma in_minutes_le :
  forall a b : timedelta, a <= b -> (in_minutes a <= in_minutes b)%Q.
Proof. intros a b Hab. unfold in_minutes, Qle. simpl. lia. Qed.

(** X3. The in-flight time of a flight within a window is never negative;
    it does not exceed the length of the window when [start_time <=
    end_time], and it does not exceed the duration of the flight when
    [departure_time <= arrival_time]. *)
Theorem calculate_inflight_time_bounds :
  forall (f : Flight.t) (start_time end_time : datetime),
    (0 <= calculate_inflight_time f start_time end_time)%Q
    /\ (start_time <= end_time ->
        (calculate_inflight_time f start_time end_time
         <= in_minutes (end_time - start_time)%Z)%Q)
    /\ (Flight.departure_time f <= Flight.arrival_time f ->
        (calculate_inflight_time f start_time end_time
         <= in_minutes (Flight.arrival_time f
                        - Flight.departure_time f)%Z)%Q).
Proof.
  intros f s e. unfold calculate_inflight_time.
  destruct (Z.ltb_spec (Z.max (Flight.departure_time f) s)
                       (Z.min (Flight.arrival_time f) e)) as [Hlt | Hge].
  - split; [| split].
    + rewrite in_minutes_total_seconds. unfold in_minutes, Qle. simpl. lia.
    + intros Hw. rewrite in_minutes_total_seconds. apply in_minutes_le. lia.
    + intros Hf. rewrite in_minutes_total_seconds. apply in_minutes_le. lia.
  - split; [unfold Qle; simpl; lia |].
    split; intros Hh; unfold in_minutes, Qle; simpl; lia.
Qed.

Lemma calculate_inflight_time_bounds_witness :
  (calculate_inflight_time flight_spanning (at_time "2030-01-01T09:00:00")
                           (at_time "2030-01-01T16:00:00")
   <= in_minutes (at_time "2030-01-01T16:00:00"
                  - at_time "2030-01-01T09:00:00")%Z)%Q.
Proof.
  apply (proj1 (proj2 (calculate_inflight_time_bounds flight_spanning
                         (at_time "2030-01-01T09:00:00")
                         (at_time "2030-01-01T16:00:00")))).
  vm_compute. discriminate.
Defined.

(** X4. A flight with a positive in-flight time within the window is one
    the query of the report selects: the filter drops no flight that would
    add minutes. *)
Theorem positive_inflight_time_selected :
  forall (f : Flight.t) (start_time end_time : datetime),
    (0 < calculate_inflight_time f start_time end_time)%Q ->
    within_range start_time end_time f = true.
Proof.
  intros f s e. unfold calculate_inflight_time, within_range.
  destruct (Z.ltb_spec (Z.max (Flight.departure_time f) s)
                       (Z.min (Flight.arrival_time f) e)) as [Hlt | Hge].
  - intros _. leb_cases; simpl; try reflexivity; lia.
  - intros H0. unfold Qlt in H0. simpl in H0. lia.
Qed.

Lemma positive_inflight_time_selected_witness :
  within_range (at_time "2030-01-01T09:00:00") (at_time "2030-01-01T16:00:00")
               flight_spanning = true.
Proof.
  apply positive_inflight_time_selected. vm_compute. reflexivity.
Defined.

(** ** The groups of the report *)

Lemma times_total_app :
  forall t1 t2 : list (Z * Q),
    (times_total (t1 ++ t2) == times_total t1 + times_total t2)%Q.
Proof.
  intros t1 t2. unfold times_total.
  induction t1 as [| [a m] r IH]; simpl; [ring | rewrite IH; ring].
Qed.

Lemma times_total_modify :
  forall (a : Z) (m : Q) (times : list (Z * Q)),
    dict_mem Z.eqb a times = true ->
    (times_total (dict_modify Z.eqb a (fun minutes => minutes + m) times)
     == times_total times + m)%Q.
Proof.
  intros a m times. unfold dict_mem, times_total.
  induction times as [| [k v] r IH]; simpl; [discriminate |].
  destruct (a =? k); simpl; intros Hm; [ring |].
  rewrite (IH Hm). ring.
Qed.

Lemma count_in_group_balanced :
  forall (s e : datetime) (x : Flight.t) (g : AirportStats),
    (total_flight_time g == times_total (aircraft_flight_times g))%Q ->
    (total_flight_time (count_in_group s e x g)
     == times_total (aircraft_flight_times (count_in_group s e x g)))%Q.
Proof.
  intros s e x g Hg. unfold count_in_group.
  destruct (Flight.aircraft_id x) as [a |]; [| exact Hg].
  destruct (int_truthy (Some a)); [| exact Hg].
  cbn [total_flight_time aircraft_flight_times].
  destruct (dict_mem Z.eqb a (aircraft_flight_times g)) eqn:M; cbn [negb].
  - rewrite (times_total_modify a _ _ M), Hg. reflexivity.
  - rewrite times_total_modify.
    + unfold dict_set. rewrite M, times_total_app, Hg. simpl. ring.
    + unfold dict_mem. rewrite (dict_get_set _ Z.eqb_eq), Z.eqb_refl.
      reflexivity.
Qed.

Lemma group_flights_balanced :
  forall (s e : datetime) (l : list Flight.t) (k : string) (g : AirportStats),
    dict_get String.eqb k (group_flights s e l) = Some g ->
    (total_flight_time g == times_total (aircraft_flight_times g))%Q.
Proof.
  intros s e l. induction l as [| x l IH] using rev_ind; intros k g.
  - discriminate.
  - rewrite group_flights_snoc, count_flight_get.
    destruct (String.eqb k (Flight.departure_airport x)); [| apply IH].
    intros [= <-]. apply count_in_group_balanced.
    destruct (dict_get String.eqb (Flight.departure_airport x)
                       (group_flights s e l)) as [g0 |] eqn:G; simpl.
    + apply (IH _ _ G).
    + reflexivity.
Qed.

(** X5. In the dictionary the report builds, the [total_flight_time] of
    every departure airport is the sum of the minutes accumulated for its
    aircraft. *)
Theorem group_total_is_sum_of_aircraft_times :
  forall (start_time end_time : datetime) (flights : list Flight.t)
         (airport : string) (g : AirportStats),
    In (airport, g) (group_flights start_time end_time flights) ->
    (total_flight_time g == times_total (aircraft_flight_times g))%Q.
Proof.
  intros s e l k g Hin.
  apply (group_flights_balanced s e l k g).
  apply (dict_in_get _ String.eqb_eq); [| exact Hin].
  apply (group_flights_spec s e l).
Qed.

Lemma group_total_is_sum_of_aircraft_times_witness :
  (total_flight_time
     (group_or_new
        (dict_get String.eqb "EGLL"
           (group_flights (at_time "2030-01-01T12:00:00")
              (at_time "2030-01-01T18:00:00") [flight_spanning])))
   == times_total
        (aircraft_flight_times
           (group_or_new
              (dict_get String.eqb "EGLL"
                 (group_flights (at_time "2030-01-01T12:00:00")
                    (at_time "2030-01-01T18:00:00") [flight_spanning])))))%Q.
Proof.
  apply (group_total_is_sum_of_aircraft_times
           (at_time "2030-01-01T12:00:00") (at_time "2030-01-01T18:00:00")
           [flight_spanning] "EGLL").
  left. reflexivity.
Defined.

Lemma dict_mem_keys :
  forall {V} (k : string) (d : list (string * V)),
    dict_mem String.eqb k d = existsb (String.eqb k) (dict_keys d).
Proof.
  intros V k d. unfold dict_mem, dict_keys.
  induction d as [| [k' v] r IH]; simpl; [reflexivity |].
  destruct (String.eqb k k'); [reflexivity | exact IH].
Qed.

(** X6. The report lists the departure airports in the order in which the
    selected flights first name them, each airport once. *)
Theorem group_flights_order :
  forall (start_time end_time : datetime) (flights : list Flight.t),
    dict_keys (group_flights start_time end_time flights)
    = first_seen (map Flight.departure_airport flights).
Proof.
  intros s e l. induction l as [| x l IH] using rev_ind; [reflexivity |].
  rewrite group_flights_snoc, count_flight_keys, map_app. unfold first_seen.
  rewrite fold_left_app. fold (first_seen (map Flight.departure_airport l)).
  rewrite <- IH. simpl. rewrite dict_mem_keys. reflexivity.
Qed.

(** ** What a request can do to the store *)

Lemma write_flight_write :
  forall (f f' : Flight.t) (d : Db),
    Flight.id f' = Flight.id f ->
    write_flight f' (write_flight f d) = write_flight f' d.
Proof.
  intros f f' [rows fl] Hid. unfold write_flight. simpl. f_equal.
  rewrite map_map. apply map_ext. intros r. rewrite Hid.
  destruct (Flight.id r =? Flight.id f) eqn:E; [| rewrite E; reflexivity].
  rewrite Z.eqb_refl. reflexivity.
Qed.

Lemma write_aircraft_write :
  forall (a a' : Aircraft.t) (d : Db),
    Aircraft.id a' = Aircraft.id a ->
    write_aircraft a' (write_aircraft a d) = write_aircraft a' d.
Proof.
  intros a a' [rows fl] Hid. unfold write_aircraft. simpl. f_equal.
  rewrite map_map. apply map_ext. intros r. rewrite Hid.
  destruct (Aircraft.id r =? Aircraft.id a) eqn:E; [| rewrite E; reflexivity].
  rewrite Z.eqb_refl. reflexivity.
Qed.

Lemma create_aircraft_change :
  forall (now : datetime) (req : Request) (data : AircraftBody.t) (d : Db),
    Change now req d (stored (snd (run (create_aircraft data) (begin d)))).
Proof.
  intros now req [[serial |] [manuf |]] d; unfold create_aircraft;
    unfold_view;
    cbn [AircraftBody.serial_number AircraftBody.manufacturer is_some negb
         orb snd]; try apply Unchanged.
  destruct (aircraft_by_serial serial d) eqn:E; cbn [is_some snd];
    [apply Unchanged |].
  apply (AircraftInserted now req d serial manuf E).
Qed.

Lemma update_aircraft_change :
  forall (now : datetime) (req : Request) (i : Z) (data : AircraftBody.t)
         (d : Db),
    Change now req d (stored (snd (run (update_aircraft i data) (begin d)))).
Proof.
  intros now req i [serial manuf] d. unfold update_aircraft. unfold_view.
  cbn [AircraftBody.serial_number AircraftBody.manufacturer].
  destruct (aircraft_get i d) as [a |] eqn:G; cbn [snd]; [| apply Unchanged].
  destruct (aircraft_get_some i d a G) as [Ha Hai]. subst i.
  destruct serial as [serial |].
  - destruct (match aircraft_by_serial serial d with
              | Some e => negb (Aircraft.id e =? Aircraft.id a)
              | None => false
              end) eqn:Chk; cbn [snd]; [apply Unchanged |].
    destruct manuf as [manuf |]; cbn [snd].
    + rewrite write_aircraft_write by reflexivity.
      apply (AircraftWritten now req d a); [exact G | right; exact Chk].
    + apply (AircraftWritten now req d a); [exact G | right; exact Chk].
  - destruct manuf as [manuf |]; cbn [snd]; [| apply Unchanged].
    apply (AircraftWritten now req d a); [exact G | left; reflexivity].
Qed.

Lemma delete_aircraft_change :
  forall (now : datetime) (req : Request) (i : Z) (d : Db),
    Change now req d (stored (snd (run (delete_aircraft i) (begin d)))).
Proof.
  intros now req i d. unfold delete_aircraft. unfold_view.
  destruct (aircraft_get i d) as [a |] eqn:G; cbn [snd]; [| apply Unchanged].
  destruct (aircraft_get_some i d a G) as [Ha Hai]. subst i.
  destruct (flight_by_aircraft (Aircraft.id a) d) eqn:F; cbn [is_some snd];
    [apply Unchanged |].
  apply (AircraftRemoved now req d a G F).
Qed.

Ltac pick_disjunct :=
  first
    [ reflexivity
    | assumption
    | split; pick_disjunct
    | eexists; split; cycle 1; [reflexivity | assumption]
    | eexists; split; [reflexivity | pick_disjunct]
    | match goal with
      | E : aircraft_get _ _ = Some _ |- is_some _ = true =>
          exact (f_equal is_some E)
      end
    | unfold ordered; simpl; lia
    | simpl; lia
    | left; pick_disjunct
    | right; pick_disjunct ].

Ltac change_case :=
  first
    [ apply Unchanged
    | progress cbv beta iota delta
        [negb is_some andb get_aircraft_id int_truthy
         FlightBody.aircraft_id Nat.eqb List.length snd]
    | match goal with
      | |- context [validate_icao_code ?x] =>
          destruct (validate_icao_code x) eqn:?
      | |- context [parse_datetime ?x] => destruct (parse_datetime x) eqn:?
      | |- context [?a <=? ?b] => destruct (Z.leb_spec a b)
      | |- context [?a =? 0] => destruct (Z.eqb_spec a 0)
      | |- context [aircraft_get ?n ?d] => destruct (aircraft_get n d) eqn:?
      end ].

Section Changes.
Context `{IsoFormat}.

Lemma create_flight_change :
  forall (now : datetime) (req : Request) (data : FlightBody.t) (d : Db),
    Change now req d (stored (snd (run (create_flight now data) (begin d)))).
Proof.
  intros now req [[da |] [aa |] [dt |] [at_ |] aid] d;
    try apply Unchanged.
  unfold create_flight. unfold_view.
  cbn [FlightBody.departure_airport FlightBody.arrival_airport
       FlightBody.departure_time FlightBody.arrival_time].
  match goal with
  | |- context [filter ?f required_fields] =>
      replace (filter f required_fields) with (@nil string) by reflexivity
  end.
  destruct aid as [[n |] |]; repeat change_case;
    apply FlightInserted; try assumption; try lia;
    intros m Hm Hnz; try discriminate;
    injection Hm as <-; try contradiction;
    match goal with
    | E : aircraft_get _ _ = Some _ |- _ => rewrite E; reflexivity
    end.
Qed.

Lemma update_flight_change :
  forall (now : datetime) (i : Z) (data : FlightBody.t) (d : Db),
    Change now (UpdateFlight i data) d
           (stored (snd (run (update_flight now i data) (begin d)))).
Proof.
  intros now i [da aa dt at_ aid] d.
  unfold update_flight. unfold_view.
  cbn [FlightBody.departure_airport FlightBody.arrival_airport
       FlightBody.departure_time FlightBody.arrival_time
       FlightBody.aircraft_id].
  destruct (flight_get i d) as [f |] eqn:G; cbn [snd]; [| apply Unchanged].
  pose proof (flight_get_some i d f G) as Hid. subst i.
  destruct dt as [dt |], at_ as [at_ |], da as [da |], aa as [aa |],
           aid as [[n |] |];
    repeat change_case;
    rewrite ?write_flight_write by reflexivity;
    (eapply FlightWritten; [exact G | pick_disjunct ..]).
Qed.

Lemma delete_flight_change :
  forall (now : datetime) (req : Request) (i : Z) (d : Db),
    Change now req d (stored (snd (run (delete_flight i) (begin d)))).
Proof.
  intros now req i d. unfold delete_flight. unfold_view.
  destruct (flight_get i d) as [f |] eqn:G; cbn [snd]; [| apply Unchanged].
  pose proof (flight_get_some i d f G) as Hid. subst i.
  apply (FlightRemoved now req d f G).
Qed.

Lemma assign_aircraft_to_flight_change :
  forall (now : datetime) (req : Request) (i j : Z) (d : Db),
    Change now req d
           (stored (snd (run (assign_aircraft_to_flight i j) (begin d)))).
Proof.
  intros now req i j d. unfold assign_aircraft_to_flight. unfold_view.
  destruct (flight_get i d) as [f |] eqn:G; cbn [snd]; [| apply Unchanged].
  pose proof (flight_get_some i d f G) as Hid. subst i.
  destruct (aircraft_get j d) as [a |] eqn:A; cbn [snd]; [| apply Unchanged].
  destruct (aircraft_get_some j d a A) as [_ Haj]. subst j.
  eapply FlightWritten; [exact G | pick_disjunct ..].
Qed.

Lemma run_quiet :
  forall (v : View Response) (s : Session),
    quiet v -> stored (snd (run v s)) = stored s.
Proof.
  intros v s Hv. specialize (Hv s). unfold run.
  destruct (v s) as [[r | r] s']; exact Hv.
Qed.

Lemma view_function_change :
  forall (now : datetime) (req : Request) (d : Db),
    Change now req d (stored (snd (run (view_function now req) (begin d)))).
Proof.
  intros now req d.
  destruct req as [| i | data | i data | i | args | i | data | i data | i
                   | f a | args]; cbn [view_function].
  - rewrite run_quiet by (unfold get_aircraft; quiet_tac). apply Unchanged.
  - rewrite run_quiet by (unfold get_aircraft_by_id; quiet_tac).
    apply Unchanged.
  - apply create_aircraft_change.
  - apply update_aircraft_change.
  - apply delete_aircraft_change.
  - rewrite run_quiet by (unfold get_flights; quiet_tac). apply Unchanged.
  - rewrite run_quiet by (unfold get_flight_by_id; quiet_tac).
    apply Unchanged.
  - apply create_flight_change.
  - apply update_flight_change.
  - apply delete_flight_change.
  - apply assign_aircraft_to_flight_change.
  - rewrite run_quiet by (unfold flight_statistics; quiet_tac).
    apply Unchanged.
Qed.

Lemma serve_stored :
  forall (now : datetime) (req : Request) (d : Db),
    snd (serve now req d)
    = stored (snd (run (view_function now req) (begin d))).
Proof.
  intros now req d. unfold serve.
  destruct (run (view_function now req) (begin d)); reflexivity.
Qed.

(** X7. Whatever the request, the store it leaves is the store it found,
    or that store after one insertion, one rewritten row or one removal,
    made after the checks listed with [Change]. *)
Theorem serve_changes_store_by_one_step :
  forall (now : datetime) (req : Request) (d : Db),
    Change now req d (snd (serve now req d)).
Proof.
  intros now req d. rewrite serve_stored. apply view_function_change.
Qed.
End Changes.

(** ** Invariants of the store *)

Lemma NoDup_map_filter :
  forall {A B} (f : A -> B) (p : A -> bool) (l : list A),
    NoDup (map f l) -> NoDup (map f (filter p l)).
Proof.
  intros A B f p l. induction l as [| a l IH]; simpl; [auto |].
  intros Hnd. inversion Hnd as [| ? ? Hn Hnd']; subst.
  destruct (p a); simpl; [| auto].
  constructor; [| auto].
  intros Hin. apply Hn. apply in_map_iff in Hin.
  destruct Hin as [x [Hx Hin]]. apply filter_In in Hin.
  rewrite <- Hx. apply in_map. apply Hin.
Qed.

Lemma write_flight_ids :
  forall (f : Flight.t) (d : Db),
    map Flight.id (flight_table (write_flight f d))
    = map Flight.id (flight_table d).
Proof.
  intros f d. simpl. rewrite map_map. apply map_ext. intros r.
  destruct (Z.eqb_spec (Flight.id r) (Flight.id f)); congruence.
Qed.

Lemma Forall_write :
  forall (P : Flight.t -> Prop) (f : Flight.t) (d : Db),
    Forall P (flight_table d) -> P f ->
    Forall P (flight_table (write_flight f d)).
Proof.
  intros P f d Hall Hf. simpl. apply Forall_forall. intros r Hr.
  apply in_map_iff in Hr. destruct Hr as [r0 [<- Hr0]].
  destruct (Flight.id r0 =? Flight.id f); [exact Hf |].
  apply (proj1 (Forall_forall _ _) Hall). exact Hr0.
Qed.

Lemma Forall_filter :
  forall {A} (P : A -> Prop) (p : A -> bool) (l : list A),
    Forall P l -> Forall P (filter p l).
Proof.
  intros A P p l Hall. apply Forall_forall. intros x Hx.
  apply filter_In in Hx. apply (proj1 (Forall_forall _ _) Hall). apply Hx.
Qed.

Lemma flight_get_in :
  forall (i : Z) (d : Db) (f : Flight.t),
    flight_get i d = Some f -> In f (flight_table d).
Proof. intros i d f Hg. apply find_some in Hg. apply Hg. Qed.

Lemma change_unique_keys :
  forall (now : datetime) (req : Request) (d d' : Db),
    Change now req d d' -> unique_keys d -> unique_keys d'.
Proof.
  intros now req d d' Hc [Hwf Hfl].
  destruct Hc as [| serial manuf Hs | a a' Ha Hs | a Ha Hf
                  | dep arr t1 t2 aid _ _ _ _ _ | f f' Hf _ _ _ _ | f Hf].
  - split; assumption.
  - split; [apply insert_aircraft_wf; assumption | exact Hfl].
  - split; [| exact Hfl]. apply write_aircraft_wf; [exact Hwf |].
    destruct Hs as [Hs | Hs].
    + rewrite Hs. apply serial_free_own; assumption.
    + apply serial_free_checked; assumption.
  - split; [| exact Hfl]. destruct Hwf as [Hid Hser].
    split; simpl; apply NoDup_map_filter; assumption.
  - split; [exact Hwf |]. simpl. rewrite map_app. simpl.
    apply NoDup_snoc; [exact Hfl | apply next_id_fresh].
  - split; [exact Hwf |]. rewrite write_flight_ids. exact Hfl.
  - split; [exact Hwf |]. simpl. apply NoDup_map_filter. exact Hfl.
Qed.

Lemma find_app_some :
  forall {A} (p : A -> bool) (l l' : list A),
    is_some (find p l) = true -> is_some (find p (l ++ l')) = true.
Proof.
  intros A p l l'. induction l as [| a l IH]; simpl; [discriminate |].
  destruct (p a); [reflexivity | exact IH].
Qed.

Lemma aircraft_get_insert :
  forall (n : Z) (serial manuf : string) (d : Db),
    is_some (aircraft_get n d) = true ->
    is_some (aircraft_get n (snd (insert_aircraft serial manuf d))) = true.
Proof.
  intros n serial manuf d. unfold aircraft_get. simpl. apply find_app_some.
Qed.

Lemma aircraft_get_write_some :
  forall (n : Z) (a : Aircraft.t) (d : Db),
    is_some (aircraft_get n (write_aircraft a d))
    = is_some (aircraft_get n d).
Proof.
  intros n a [rows fl]. unfold aircraft_get. simpl.
  induction rows as [| r rest IH]; simpl; [reflexivity |].
  destruct (Z.eqb_spec (Aircraft.id r) (Aircraft.id a)) as [E | E].
  - replace (Aircraft.id r =? n) with (Aircraft.id a =? n)
      by (rewrite E; reflexivity).
    destruct (Aircraft.id a =? n); [reflexivity | exact IH].
  - destruct (Aircraft.id r =? n); [reflexivity | exact IH].
Qed.

Lemma aircraft_get_remove :
  forall (n : Z) (a : Aircraft.t) (d : Db),
    n <> Aircraft.id a ->
    aircraft_get n (remove_aircraft a d) = aircraft_get n d.
Proof.
  intros n a [rows fl] Hn. unfold aircraft_get. simpl.
  induction rows as [| r rest IH]; simpl; [reflexivity |].
  destruct (Z.eqb_spec (Aircraft.id r) (Aircraft.id a)) as [E | E]; simpl.
  - destruct (Z.eqb_spec (Aircraft.id r) n); [congruence | exact IH].
  - destruct (Aircraft.id r =? n); [reflexivity | exact IH].
Qed.

Lemma flight_by_aircraft_none :
  forall (i : Z) (d : Db) (f : Flight.t),
    flight_by_aircraft i d = None -> In f (flight_table d) ->
    Flight.aircraft_id f <> Some i.
Proof.
  intros i d f Hnone Hin Ha.
  pose proof (find_none _ _ Hnone f Hin) as Hf. simpl in Hf.
  rewrite Ha, Z.eqb_refl in Hf. discriminate.
Qed.

Lemma change_references_resolve :
  forall (now : datetime) (req : Request) (d d' : Db),
    Change now req d d' -> references_resolve d -> references_resolve d'.
Proof.
  intros now req d d' Hc Hrefs.
  destruct Hc as [| serial manuf Hs | a a' Ha Hs | a Ha Hf
                  | dep arr t1 t2 aid _ _ _ _ Haid
                  | f f' Hf _ _ Hair _ | f Hf]; intros x n Hx Hxa Hn.
  - apply (Hrefs x n); assumption.
  - apply aircraft_get_insert. apply (Hrefs x n); assumption.
  - rewrite aircraft_get_write_some. apply (Hrefs x n); assumption.
  - rewrite aircraft_get_remove; [apply (Hrefs x n); assumption |].
    intros ->. exact (flight_by_aircraft_none _ d x Hf Hx Hxa).
  - simpl in Hx. apply in_app_or in Hx. destruct Hx as [Hx | [<- | []]].
    + apply (Hrefs x n); assumption.
    + simpl in Hxa. apply (Haid n); assumption.
  - simpl in Hx. apply in_map_iff in Hx. destruct Hx as [r [Hr Hin]].
    destruct (Flight.id r =? Flight.id f').
    + subst x. destruct Hair as [Hsame | [Hnone | [m [Hm Hex]]]].
      * apply (Hrefs f n); [apply (flight_get_in _ _ _ Hf) | congruence
                            | exact Hn].
      * congruence.
      * assert (m = n) by congruence. subst m. exact Hex.
    + subst x. apply (Hrefs r n); assumption.
  - simpl in Hx. apply filter_In in Hx.
    apply (Hrefs x n); [apply Hx | assumption | assumption].
Qed.


Lemma change_flights_ordered :
  forall (now : datetime) (req : Request) (d d' : Db),
    Change now req d d' -> departure_only req = false ->
    flights_ordered d -> flights_ordered d'.
Proof.
  intros now req d d' Hc Hreq Hall. unfold flights_ordered in *.
  destruct Hc as [| serial manuf Hs | a a' Ha Hs | a Ha Hf
                  | dep arr t1 t2 aid _ _ _ Ht _
                  | f f' Hf _ _ _ Htimes | f Hf]; try exact Hall.
  - simpl. apply Forall_app. split; [exact Hall |].
    constructor; [exact Ht | constructor].
  - apply Forall_write; [exact Hall |].
    pose proof (proj1 (Forall_forall _ _) Hall f (flight_get_in _ _ _ Hf))
      as Hford.
    destruct Htimes as [[Hd Ha] | [Ho | [Hdo _]]].
    + unfold ordered in *. rewrite Hd, Ha. exact Hford.
    + exact Ho.
    + rewrite Hreq in Hdo. discriminate.
  - simpl. apply Forall_filter. exact Hall.
Qed.

Section Invariants.
Context `{IsoFormat}.

(** X8. Every request leaves the keys of the aircraft, the keys of the
    flights and the serial numbers pairwise different if they were. *)
Theorem serve_keeps_unique_keys :
  forall (now : datetime) (req : Request) (d : Db),
    unique_keys d -> unique_keys (snd (serve now req d)).
Proof.
  intros now req d. rewrite serve_stored.
  apply (change_unique_keys now req). apply view_function_change.
Qed.

(** X9. Every request leaves a store in which each flight that names an
    aircraft by a key other than 0 names a stored aircraft, if the store
    was so before: in particular [delete_aircraft] never removes an
    aircraft a flight refers to. *)
Theorem serve_keeps_references :
  forall (now : datetime) (req : Request) (d : Db),
    references_resolve d -> references_resolve (snd (serve now req d)).
Proof.
  intros now req d. rewrite serve_stored.
  apply (change_references_resolve now req). apply view_function_change.
Qed.


(** X11. Every request other than an update of a flight that carries a
    [departure_time] without an [arrival_time] leaves every stored flight
    with its departure before its arrival, if the store was so before. *)
Theorem serve_keeps_flights_ordered :
  forall (now : datetime) (req : Request) (d : Db),
    departure_only req = false ->
    flights_ordered d -> flights_ordered (snd (serve now req d)).
Proof.
  intros now req d Hreq. rewrite serve_stored.
  apply (change_flights_ordered now req); [apply view_function_change |].
  exact Hreq.
Qed.

End Invariants.

Lemma sample_db_unique_keys : unique_keys sample_db.
Proof.
  repeat split; simpl; repeat constructor; simpl; intuition discriminate.
Qed.

Lemma sample_db_references_resolve : references_resolve sample_db.
Proof.
  intros f n [<- | [<- | [<- | []]]]; simpl; intros [= <-] _; reflexivity.
Qed.


Lemma sample_db_flights_ordered : flights_ordered sample_db.
Proof. repeat constructor. Qed.

Lemma serve_keeps_unique_keys_witness :
  unique_keys
    (snd (@serve iso_basic_format sample_now
            (CreateAircraft (AircraftBody.make (Some "NEW001")
                                               (Some "Bombardier")))
            sample_db)).
Proof.
  apply (@serve_keeps_unique_keys iso_basic_format).
  exact sample_db_unique_keys.
Defined.

Lemma serve_keeps_references_witness :
  references_resolve
    (snd (@serve iso_basic_format sample_now (DeleteAircraft 2) sample_db)).
Proof.
  apply (@serve_keeps_references iso_basic_format).
  exact sample_db_references_resolve.
Defined.


Lemma serve_keeps_flights_ordered_witness :
  flights_ordered
    (snd (@serve iso_basic_format sample_now (CreateFlight zero_id_body)
            sample_db)).
Proof.
  apply (@serve_keeps_flights_ordered iso_basic_format).
  - reflexivity.
  - exact sample_db_flights_ordered.
Defined.

(** ** Round trips *)

Lemma find_app_value :
  forall {A} (p : A -> bool) (l l' : list A) (v : A),
    find p l = Some v -> find p (l ++ l') = Some v.
Proof.
  intros A p l l' v. induction l as [| a l IH]; simpl; [discriminate |].
  destruct (p a); [auto | exact IH].
Qed.

Lemma find_snoc_new :
  forall {A} (p : A -> bool) (l : list A) (x : A),
    find p l = None -> p x = true -> find p (l ++ [x]) = Some x.
Proof.
  intros A p l x. induction l as [| a l IH]; simpl.
  - intros _ ->. reflexivity.
  - destruct (p a); [discriminate | exact IH].
Qed.

Lemma find_all_false :
  forall {A} (p : A -> bool) (l : list A),
    (forall r, In r l -> p r = false) -> find p l = None.
Proof.
  intros A p l. induction l as [| a l IH]; simpl; [reflexivity |].
  intros Hall. rewrite (Hall a) by (left; reflexivity).
  apply IH. intros r Hr. apply Hall. right. exact Hr.
Qed.

Lemma aircraft_get_next_id :
  forall d : Db,
    aircraft_get (next_id (map Aircraft.id (aircraft_table d))) d = None.
Proof.
  intros d. unfold aircraft_get. apply find_all_false. intros r Hr.
  apply Z.eqb_neq. intros Heq.
  apply (next_id_fresh (map Aircraft.id (aircraft_table d))).
  rewrite <- Heq. apply in_map. exact Hr.
Qed.


Lemma aircraft_get_remove_same :
  forall (a : Aircraft.t) (d : Db),
    aircraft_get (Aircraft.id a) (remove_aircraft a d) = None.
Proof.
  intros a d. unfold aircraft_get. apply find_all_false. intros r Hr.
  simpl in Hr. apply filter_In in Hr. destruct Hr as [_ Hr].
  apply negb_true_iff in Hr. exact Hr.
Qed.

Lemma flight_get_remove_same :
  forall (f : Flight.t) (d : Db),
    flight_get (Flight.id f) (remove_flight f d) = None.
Proof.
  intros f d. unfold flight_get. apply find_all_false. intros r Hr.
  simpl in Hr. apply filter_In in Hr. destruct Hr as [_ Hr].
  apply negb_true_iff in Hr. exact Hr.
Qed.

Lemma flight_get_remove :
  forall (n : Z) (f : Flight.t) (d : Db),
    n <> Flight.id f -> flight_get n (remove_flight f d) = flight_get n d.
Proof.
  intros n f [rows fl] Hn. unfold flight_get. simpl.
  induction fl as [| r rest IH]; simpl; [reflexivity |].
  destruct (Z.eqb_spec (Flight.id r) (Flight.id f)) as [E | E]; simpl.
  - destruct (Z.eqb_spec (Flight.id r) n); [congruence | exact IH].
  - destruct (Flight.id r =? n); [reflexivity | exact IH].
Qed.

Section RoundTrips.
Context `{IsoFormat}.

(** X13. [create_aircraft], given both fields: when no stored aircraft has
    the serial number, the aircraft is stored under a new key, a later
    [get_aircraft_by_id] with that key returns it, and the aircraft stored
    before are found as before; when the serial number is in use, the
    answer is 409 and the store is unchanged. *)
Theorem create_aircraft_then_get :
  forall (now now' : datetime) (serial manuf : string) (d : Db),
    let a := Aircraft.make (next_id (map Aircraft.id (aircraft_table d)))
                           serial manuf in
    let req := CreateAircraft (AircraftBody.make (Some serial) (Some manuf)) in
    match aircraft_by_serial serial d with
    | None =>
        fst (serve now req d)
        = Success 201 (Some "Aircraft created successfully") (AircraftData a)
        /\ fst (serve now' (GetAircraftById (Aircraft.id a))
                      (snd (serve now req d)))
           = Success 200 None (AircraftData a)
        /\ (forall i b, aircraft_get i d = Some b ->
                        aircraft_get i (snd (serve now req d)) = Some b)
    | Some _ =>
        serve now req d
        = (Error 409 ("Aircraft with serial number '" ++ serial
                      ++ "' already exists")%string, d)
    end.
Proof.
  intros now now' serial manuf d a req.
  unfold req, serve, view_function, create_aircraft. unfold_view.
  cbn [AircraftBody.serial_number AircraftBody.manufacturer is_some negb orb].
  destruct (aircraft_by_serial serial d) eqn:E; cbn [is_some];
    [reflexivity |].
  cbn [fst snd insert_aircraft]. split; [reflexivity |]. split.
  - unfold get_aircraft_by_id. unfold_view.
    unfold aircraft_get. cbn [aircraft_table].
    rewrite find_snoc_new; [reflexivity | apply aircraft_get_next_id |].
    apply Z.eqb_refl.
  - intros i b Hb. unfold aircraft_get. cbn [aircraft_table].
    apply find_app_value. exact Hb.
Qed.

(** X14. [delete_aircraft] answers 404 for a key that is not stored and 400
    for an aircraft some flight is assigned to, and changes nothing then;
    otherwise the aircraft is removed: a later [get_aircraft_by_id] with
    its key answers 404, and every other aircraft is found as before. *)
Theorem delete_aircraft_then_get :
  forall (now now' : datetime) (i : Z) (d : Db),
    match aircraft_get i d, flight_by_aircraft i d with
    | None, _ => serve now (DeleteAircraft i) d = (Abort 404, d)
    | Some _, Some _ =>
        serve now (DeleteAircraft i) d
        = (Error 400 "Cannot delete aircraft that is assigned to flights", d)
    | Some _, None =>
        fst (serve now (DeleteAircraft i) d)
        = Success 200 (Some "Aircraft deleted successfully") NoData
        /\ fst (serve now' (GetAircraftById i)
                      (snd (serve now (DeleteAircraft i) d)))
           = Abort 404
        /\ (forall j, j <> i ->
                      aircraft_get j (snd (serve now (DeleteAircraft i) d))
                      = aircraft_get j d)
        /\ flight_table (snd (serve now (DeleteAircraft i) d))
           = flight_table d
    end.
Proof.
  intros now now' i d.
  unfold serve, view_function, delete_aircraft. unfold_view.
  destruct (aircraft_get i d) as [a |] eqn:G; [| reflexivity].
  destruct (aircraft_get_some i d a G) as [_ Hai]. subst i.
  destruct (flight_by_aircraft (Aircraft.id a) d) eqn:F; cbn [is_some];
    [reflexivity |].
  cbn [fst snd]. split; [reflexivity |]. split; [| split].
  - unfold get_aircraft_by_id. unfold_view.
    rewrite aircraft_get_remove_same. reflexivity.
  - intros j Hj. apply aircraft_get_remove. exact Hj.
  - reflexivity.
Qed.

(** X15. [delete_flight] answers 404 for a key that is not stored and
    changes nothing then; otherwise the flight is removed whatever it
    holds: a later [get_flight_by_id] with its key answers 404, every other
    flight is found as before and the aircraft are untouched. *)
Theorem delete_flight_then_get :
  forall (now now' : datetime) (i : Z) (d : Db),
    match flight_get i d with
    | None => serve now (DeleteFlight i) d = (Abort 404, d)
    | Some _ =>
        fst (serve now (DeleteFlight i) d)
        = Success 200 (Some "Flight deleted successfully") NoData
        /\ fst (serve now' (GetFlightById i)
                      (snd (serve now (DeleteFlight i) d)))
           = Abort 404
        /\ (forall j, j <> i ->
                      flight_get j (snd (serve now (DeleteFlight i) d))
                      = flight_get j d)
        /\ aircraft_table (snd (serve now (DeleteFlight i) d))
           = aircraft_table d
    end.
Proof.
  intros now now' i d.
  unfold serve, view_function, delete_flight. unfold_view.
  destruct (flight_get i d) as [f |] eqn:G; [| reflexivity].
  pose proof (flight_get_some i d f G) as Hid. subst i.
  cbn [fst snd]. split; [reflexivity |]. split; [| split].
  - unfold get_flight_by_id. unfold_view.
    rewrite flight_get_remove_same. reflexivity.
  - intros j Hj. apply flight_get_remove. exact Hj.
  - reflexivity.
Qed.
End RoundTrips.

Lemma create_aircraft_then_get_witness :
  aircraft_get 1
    (snd (@serve iso_basic_format sample_now
            (CreateAircraft (AircraftBody.make (Some "NEW001")
                                               (Some "Bombardier")))
            sample_db))
  = Some (Aircraft.make 1 "TEST001" "Airbus").
Proof.
  apply (proj2 (proj2 (@create_aircraft_then_get iso_basic_format sample_now
                         sample_now "NEW001" "Bombardier" sample_db))).
  reflexivity.
Defined.

Lemma delete_aircraft_then_get_witness :
  aircraft_get 1
    (snd (@serve iso_basic_format sample_now (DeleteAircraft 3) fleet_db))
  = aircraft_get 1 fleet_db.
Proof.
  apply (proj1 (proj2 (proj2 (@delete_aircraft_then_get iso_basic_format
                                sample_now sample_now 3 fleet_db)))).
  discriminate.
Defined.

Lemma delete_flight_then_get_witness :
  flight_get 2
    (snd (@serve iso_basic_format sample_now (DeleteFlight 1) sample_db))
  = flight_get 2 sample_db.
Proof.
  apply (proj1 (proj2 (proj2 (@delete_flight_then_get iso_basic_format
                                sample_now sample_now 1 sample_db)))).
  discriminate.
Defined.

Section MoreRoundTrips.
Context `{IsoFormat}.

(** X16. [assign_aircraft_to_flight] answers 404 unless both the flight and
    the aircraft are stored, the flight being looked up first; when they
    are, the flight is stored with that aircraft, whatever it had before,
    and with its other fields as they were. *)
Theorem assign_aircraft_then_get :
  forall (now : datetime) (i j : Z) (d : Db),
    match flight_get i d, aircraft_get j d with
    | Some f, Some a =>
        is_success (fst (serve now (AssignAircraft i j) d)) = true
        /\ flight_get i (snd (serve now (AssignAircraft i j) d))
           = Some (Flight.set_aircraft_id (Some j) f)
        /\ aircraft_table (snd (serve now (AssignAircraft i j) d))
           = aircraft_table d
    | _, _ => serve now (AssignAircraft i j) d = (Abort 404, d)
    end.
Proof.
  intros now i j d.
  unfold serve, view_function, assign_aircraft_to_flight. unfold_view.
  destruct (flight_get i d) as [f |] eqn:G; [| reflexivity].
  pose proof (flight_get_some i d f G) as Hid.
  assert (A' : forall x, aircraft_get j (write_flight x d) = aircraft_get j d)
    by reflexivity.
  destruct (aircraft_get j d) as [a |] eqn:A; [| reflexivity].
  destruct (aircraft_get_some j d a A) as [_ Haj].
  cbn [fst snd is_success]. split; [reflexivity |]. split; [| reflexivity].
  rewrite Haj. apply flight_get_write; [rewrite G; reflexivity | exact Hid].
Qed.

End MoreRoundTrips.


(** ** Reading requests *)

Lemma still_pure : forall {A} (a : A), still (pure a).
Proof. intros A a s. reflexivity. Qed.

Lemma still_respond : forall {A} (r : Response), still (@respond A r).
Proof. intros A r s. reflexivity. Qed.

Lemma still_query : forall {A} (f : Db -> A), still (query f).
Proof. intros A f s. reflexivity. Qed.

Lemma still_bind :
  forall {A B} (m : View A) (k : A -> View B),
    still m -> (forall a, still (k a)) -> still (bind m k).
Proof.
  intros A B m k Hm Hk s. unfold bind. specialize (Hm s).
  destruct (m s) as [[a | r] s']; simpl in *; subst s'.
  - apply Hk.
  - reflexivity.
Qed.

Lemma still_return_if :
  forall (cond : bool) (r : Response), still (return_if cond r).
Proof. intros [|] r s; reflexivity. Qed.

Lemma still_getitem : forall {A} (o : option A), still (getitem o).
Proof. intros A [a |] s; reflexivity. Qed.

Lemma still_get_or_404 : forall {A} (f : Db -> option A), still (get_or_404 f).
Proof.
  intros A f. unfold get_or_404. apply still_bind; [apply still_query |].
  intros [a |]; [apply still_pure | apply still_respond].
Qed.

Lemma still_run :
  forall (v : View Response) (s : Session), still v -> snd (run v s) = s.
Proof.
  intros v s Hv. specialize (Hv s). unfold run.
  destruct (v s) as [[r | r] s']; exact Hv.
Qed.

Ltac still_step :=
  match goal with
  | |- still (pure _) => apply still_pure
  | |- still (respond _) => apply still_respond
  | |- still (query _) => apply still_query
  | |- still (return_if _ _) => apply still_return_if
  | |- still (getitem _) => apply still_getitem
  | |- still (get_or_404 _) => apply still_get_or_404
  | |- still (bind _ _) => apply still_bind; [| intros ?]
  | |- still (match ?x with _ => _ end) => destruct x
  | |- still (let _ := _ in _) => cbv zeta
  end.

Section Reading.
Context `{IsoFormat}.

(** X18. The five [GET] handlers leave the session as they found it: they
    stage nothing and commit nothing, whatever they answer. *)
Theorem read_only_request_leaves_session :
  forall (now : datetime) (req : Request) (s : Session),
    read_only req = true -> snd (run (view_function now req) s) = s.
Proof.
  intros now req s Hreq. apply still_run.
  destruct req; try discriminate; cbn [view_function].
  - unfold get_aircraft. repeat still_step.
  - unfold get_aircraft_by_id. repeat still_step.
  - unfold get_flights. repeat still_step.
  - unfold get_flight_by_id. repeat still_step.
  - unfold flight_statistics. repeat still_step.
Qed.

(** X19. [get_flights] checks its filters in the order departure airport,
    arrival airport, [departure_after], [departure_before] and answers 400
    for the first one it refuses; otherwise it lists, in table order, the
    stored flights that pass every filter given, airport codes being
    compared in upper case and absent or empty parameters ignored. *)
Theorem get_flights_lists_matching :
  forall (args : FlightArgs.t) (s : Session),
    run (get_flights args) s
    = (if bad_code (FlightArgs.departure_airport args)
       then Error 400 ("Invalid ICAO code: "
                       ++ field_text (FlightArgs.departure_airport args))%string
       else if bad_code (FlightArgs.arrival_airport args)
       then Error 400 ("Invalid ICAO code: "
                       ++ field_text (FlightArgs.arrival_airport args))%string
       else if bad_time (FlightArgs.departure_after args)
       then Error 400 ("Invalid datetime format for departure_after: "
                       ++ field_text (FlightArgs.departure_after args))%string
       else if bad_time (FlightArgs.departure_before args)
       then Error 400 ("Invalid datetime format for departure_before: "
                       ++ field_text (FlightArgs.departure_before args))%string
       else Success 200 None
              (FlightList
                 (map (flight_to_dict (staged s))
                      (filter (passes_filters args)
                              (flight_table (staged s))))),
       s).
Proof.
  intros [da aa after before] [st sg].
  unfold get_flights, passes_filters, bad_code, bad_time. unfold_view.
  cbn [FlightArgs.departure_airport FlightArgs.arrival_airport
       FlightArgs.departure_after FlightArgs.departure_before str_truthy
       field_text].
  destruct da as [[| c1 r1] |]; destruct aa as [[| c2 r2] |];
    destruct after as [[| c3 r3] |]; destruct before as [[| c4 r4] |];
    repeat match goal with
      | |- context [validate_icao_code ?x] => destruct (validate_icao_code x)
      | |- context [parse_datetime ?x] => destruct (parse_datetime x)
      | _ => progress cbn [negb is_some]
      end;
    try reflexivity;
    do 4 f_equal; apply filter_ext; intros f;
    repeat rewrite andb_true_r; reflexivity.
Qed.
End Reading.

(** ** Edge cases *)

Section EdgeCases.
Context `{IsoFormat}.

(** X20. When no stored flight is within the range of a valid window, the
    report is the empty list with zero airports and zero flights. *)
Theorem flight_statistics_empty :
  forall (args : StatsArgs.t) (s : Session) (start_time end_time : datetime),
    valid_window args = Some (start_time, end_time) ->
    filter (within_range start_time end_time) (flight_table (staged s)) = [] ->
    run (flight_statistics args) s
    = (Success 200 None
         (ReportData [] (Meta.make start_time end_time 0 0)), s).
Proof.
  intros args [st sg] start_time end_time Hw Hnone.
  destruct (valid_window_inv args start_time end_time Hw)
    as (c1 & s1 & c2 & s2 & -> & Hp1 & Hp2 & Hlt).
  unfold flight_statistics. unfold_view.
  cbn [StatsArgs.start_time StatsArgs.end_time str_truthy negb orb].
  rewrite Hp1, Hp2. simpl in Hnone.
  destruct (Z.leb_spec end_time start_time); [lia |].
  rewrite Hnone. reflexivity.
Qed.

(** X21. An update of a stored flight that carries no field is answered
    200 and leaves the store as it was. *)
Theorem update_flight_without_fields :
  forall (now : datetime) (i : Z) (d : Db) (f : Flight.t),
    flight_get i d = Some f ->
    serve now (UpdateFlight i (FlightBody.make None None None None None)) d
    = (Success 200 (Some "Flight updated successfully")
         (FlightData (flight_to_dict d f)), d).
Proof.
  intros now i d f G. unfold serve, view_function, update_flight.
  unfold_view.
  cbn [FlightBody.departure_airport FlightBody.arrival_airport
       FlightBody.departure_time FlightBody.arrival_time
       FlightBody.aircraft_id].
  rewrite G. reflexivity.
Qed.
End EdgeCases.

Lemma flight_statistics_empty_witness :
  run (@flight_statistics iso_basic_format sample_window) (begin empty_db)
  = (Success 200 None
       (ReportData [] (Meta.make (at_time "2030-01-01T12:00:00")
                                 (at_time "2030-01-01T18:00:00") 0 0)),
     begin empty_db).
Proof.
  apply (@flight_statistics_empty iso_basic_format sample_window
           (begin empty_db) (at_time "2030-01-01T12:00:00")
           (at_time "2030-01-01T18:00:00") eq_refl eq_refl).
Defined.

Lemma update_flight_without_fields_witness :
  @serve iso_basic_format sample_now
         (UpdateFlight 3 (FlightBody.make None None None None None)) sample_db
  = (Success 200 (Some "Flight updated successfully")
       (FlightData (flight_to_dict sample_db flight_unassigned)), sample_db).
Proof.
  apply (@update_flight_without_fields iso_basic_format sample_now 3
           sample_db flight_unassigned eq_refl).
Defined.

(** X22. [Flight.to_dict] in a store whose references resolve: a flight
    with no aircraft has no [aircraft_serial_number], and a flight that
    names an aircraft (other than by 0) shows the serial number of the
    stored aircraft with that key. *)
Theorem flight_to_dict_serial_number :
  forall (d : Db) (f : Flight.t),
    references_resolve d ->
    In f (flight_table d) ->
    match Flight.aircraft_id f with
    | None => FlightDict.aircraft_serial_number (flight_to_dict d f) = None
    | Some n =>
        n <> 0 ->
        exists a,
          aircraft_get n d = Some a
          /\ Aircraft.id a = n
          /\ FlightDict.aircraft_serial_number (flight_to_dict d f)
             = Some (Aircraft.serial_number a)
    end.
Proof.
  intros d f Hrefs Hin. unfold flight_to_dict.
  destruct (Flight.aircraft_id f) as [n |] eqn:Ha; [| reflexivity].
  intros Hn. pose proof (Hrefs f n Hin Ha Hn) as Hs.
  destruct (aircraft_get n d) as [a |] eqn:G; [| discriminate].
  exists a. split; [reflexivity |]. split; [| reflexivity].
  apply (aircraft_get_some n d a G).
Qed.

Lemma flight_to_dict_serial_number_witness :
  exists a,
    aircraft_get 2 sample_db = Some a
    /\ Aircraft.id a = 2
    /\ FlightDict.aircraft_serial_number (flight_to_dict sample_db flight_spanning)
       = Some (Aircraft.serial_number a).
Proof.
  apply (flight_to_dict_serial_number sample_db flight_spanning
           sample_db_references_resolve).
  - right. left. reflexivity.
  - discriminate.
Defined.

(** The accepted update of the arrival time on the sample store. *)
Lemma update_flight_with_arrival_keeps_order_witness :
  exists f',
    flight_get 1
      (stored (snd (run (@update_flight iso_basic_format sample_now 1
                           (FlightBody.make None None None
                              (Some "2030-01-01T11:00:00") None))
                        (begin sample_db))))
    = Some f'
    /\ Flight.departure_time f' < Flight.arrival_time f'.
Proof.
  apply (@update_flight_with_arrival_keeps_order iso_basic_format sample_now 1
           (FlightBody.make None None None (Some "2030-01-01T11:00:00") None)
           (begin sample_db)
           (snd (run (@update_flight iso_basic_format sample_now 1
                        (FlightBody.make None None None
                           (Some "2030-01-01T11:00:00") None))
                     (begin sample_db)))
           "2030-01-01T11:00:00" 200 (Some "Flight updated successfully")
           (FlightData
              (flight_to_dict
                 (write_flight
                    (Flight.set_arrival_time (at_time "2030-01-01T11:00:00")
                                             flight_touching) sample_db)
                 (Flight.set_arrival_time (at_time "2030-01-01T11:00:00")
                                          flight_touching)))
           eq_refl).
  vm_compute. reflexivity.
Defined.

(** ** Rounding *)

Lemma round_half_even_near :
  forall x : Q,
    (x - (1 # 2) <= inject_Z (round_half_even x))%Q
    /\ (inject_Z (round_half_even x) <= x + (1 # 2))%Q.
Proof.
  intros x. unfold round_half_even.
  pose proof (Qfloor_le x) as Hlo. pose proof (Qlt_floor x) as Hhi.
  rewrite inject_Z_plus in Hhi. change (inject_Z 1) with 1%Q in Hhi.
  destruct (Qcompare (x - inject_Z (Qfloor x)) (1 # 2)) eqn:C.
  - apply Qeq_alt in C. destruct (Z.even (Qfloor x));
      rewrite ?inject_Z_plus; change (inject_Z 1) with 1%Q; split; lra.
  - apply Qlt_alt in C. split; lra.
  - apply Qgt_alt in C. rewrite inject_Z_plus.
    change (inject_Z 1) with 1%Q. split; lra.
Qed.

Lemma round2_near_lemma :
  forall x : Q,
    (x - (1 # 200) <= round2 x)%Q /\ (round2 x <= x + (1 # 200))%Q.
Proof.
  intros x. unfold round2.
  destruct (round_half_even_near (x * 100)) as [Hlo Hhi].
  unfold Qdiv. change (/ 100)%Q with (1 # 100)%Q.
  split; lra.
Qed.

(** [round(x, 2)] moves a value by at most half a hundredth and keeps a
    value that is not negative so. *)
Theorem round2_near :
  forall x : Q,
    (x - (1 # 200) <= round2 x)%Q
    /\ (round2 x <= x + (1 # 200))%Q
    /\ ((0 <= x)%Q -> (0 <= round2 x)%Q).
Proof.
  intros x. destruct (round2_near_lemma x) as [Hlo Hhi].
  split; [exact Hlo | split; [exact Hhi |]].
  intros Hx. unfold round2.
  assert (Hf : 0 <= Qfloor (x * 100)).
  { change 0 with (Qfloor 0). apply Qfloor_resp_le. lra. }
  assert (Hr : 0 <= round_half_even (x * 100)).
  { unfold round_half_even.
    destruct (Qcompare (x * 100 - inject_Z (Qfloor (x * 100))) (1 # 2));
      [destruct (Z.even (Qfloor (x * 100))) | |]; lia. }
  rewrite Zle_Qle in Hr. change (inject_Z 0) with 0%Q in Hr.
  unfold Qdiv. change (/ 100)%Q with (1 # 100)%Q. lra.
Qed.

Lemma round2_near_witness : (0 <= round2 (12345 # 1000))%Q.
Proof.
  apply (proj2 (proj2 (round2_near (12345 # 1000)))). vm_compute.
  discriminate.
Defined.

Lemma round2_nonneg : forall x : Q, (0 <= x)%Q -> (0 <= round2 x)%Q.
Proof.
  intros x Hx. unfold round2.
  assert (Hf : 0 <= Qfloor (x * 100)).
  { change 0 with (Qfloor 0). apply Qfloor_resp_le. lra. }
  assert (Hr : 0 <= round_half_even (x * 100)).
  { unfold round_half_even.
    destruct (Qcompare (x * 100 - inject_Z (Qfloor (x * 100))) (1 # 2));
      [destruct (Z.even (Qfloor (x * 100))) | |]; lia. }
  rewrite Zle_Qle in Hr. change (inject_Z 0) with 0%Q in Hr.
  unfold Qdiv. change (/ 100)%Q with (1 # 100)%Q. lra.
Qed.

Lemma inflight_time_window_bound :
  forall (f : Flight.t) (s e : datetime),
    (0 <= calculate_inflight_time f s e)%Q
    /\ (s <= e ->
        (calculate_inflight_time f s e <= in_minutes (e - s)%Z)%Q).
Proof.
  intros f s e. unfold calculate_inflight_time.
  destruct (Z.ltb_spec (Z.max (Flight.departure_time f) s)
                       (Z.min (Flight.arrival_time f) e)) as [Hlt | Hge].
  - rewrite in_minutes_total_seconds. split.
    + unfold in_minutes, Qle. simpl. lia.
    + intros Hw. apply in_minutes_le. lia.
  - split; [unfold Qle; simpl; lia |].
    intros Hw. unfold in_minutes, Qle. simpl. lia.
Qed.

Lemma minutes_sum_bounds :
  forall (s e : datetime) (l : list Flight.t),
    s <= e ->
    (0 <= minutes_sum s e l)%Q
    /\ (minutes_sum s e l
        <= inject_Z (Z.of_nat (List.length l)) * in_minutes (e - s)%Z)%Q.
Proof.
  intros s e l Hw. induction l as [| x l [IHlo IHhi]].
  - split; unfold minutes_sum, Qle; simpl; lia.
  - destruct (inflight_time_window_bound x s e) as (H0 & Hwin).
    specialize (Hwin Hw).
    rewrite minutes_sum_cons.
    change (List.length (x :: l)) with (S (List.length l)).
    rewrite Nat2Z.inj_succ. unfold Z.succ. rewrite inject_Z_plus.
    change (inject_Z 1) with 1%Q. split; lra.
Qed.

Lemma in_minutes_nonneg :
  forall td : timedelta, 0 <= td -> (0 <= in_minutes td)%Q.
Proof. intros td Htd. unfold in_minutes, Qle. simpl. lia. Qed.

(** X23. In the report of a statistics request with a valid window, no
    [average_flight_time] is negative and none exceeds the length of the
    window in minutes by more than half a hundredth; no [in_flight_minutes]
    is negative. *)
Theorem report_figures_bounded `{IsoFormat} :
  forall (args : StatsArgs.t) (s : Session) (start_time end_time : datetime)
         (data : list AirportData.t) (meta : Meta.t) (s' : Session),
    valid_window args = Some (start_time, end_time) ->
    run (flight_statistics args) s
    = (Success 200 None (ReportData data meta), s') ->
    Forall (fun g =>
              (0 <= AirportData.average_flight_time g)%Q
              /\ (AirportData.average_flight_time g
                  <= in_minutes (end_time - start_time)%Z + (1 # 200))%Q
              /\ Forall (fun t => (0 <= AircraftMinutes.in_flight_minutes t)%Q)
                        (AirportData.aircraft_flight_times g))
           data.
Proof.
  intros args [st sg] start_time end_time data meta s' Hw.
  destruct (valid_window_inv args start_time end_time Hw)
    as (c1 & s1 & c2 & s2 & -> & Hp1 & Hp2 & Hlt).
  unfold flight_statistics. unfold_view.
  cbn [StatsArgs.start_time StatsArgs.end_time str_truthy negb orb].
  rewrite Hp1, Hp2.
  destruct (Z.leb_spec end_time start_time); [lia |].
  intros [= <- _ _].
  set (flights := filter (within_range start_time end_time) (flight_table sg)).
  pose proof (format_airport_spec sg start_time end_time flights _
                (group_flights_spec start_time end_time flights)) as Hspec.
  apply Forall_forall. intros g Hg.
  pose proof (proj1 (Forall_forall _ _) Hspec g Hg) as (Hne & Hc & Havg & Hts).
  assert (Hw' : start_time <= end_time) by lia.
  set (fl := departing (AirportData.departure_airport g) flights) in *.
  destruct (minutes_sum_bounds start_time end_time (filter has_aircraft fl) Hw')
    as [Hlo Hhi].
  pose proof (in_minutes_nonneg (end_time - start_time) ltac:(lia)) as Hwn.
  assert (Hn : (0 < inject_Z (AirportData.flight_count g))%Q).
  { rewrite Hc. change 0%Q with (inject_Z 0). rewrite <- Zlt_Qlt.
    destruct fl; [contradiction | simpl; lia]. }
  assert (Hm : (inject_Z (Z.of_nat (List.length (filter has_aircraft fl)))
                <= inject_Z (AirportData.flight_count g))%Q).
  { rewrite Hc. rewrite <- Zle_Qle. apply Nat2Z.inj_le. apply filter_length_le. }
  assert (Hq0 : (0 <= minutes_sum start_time end_time (filter has_aircraft fl)
                      / inject_Z (AirportData.flight_count g))%Q).
  { apply Qle_shift_div_l; [exact Hn | lra]. }
  assert (Hq1 : (minutes_sum start_time end_time (filter has_aircraft fl)
                 / inject_Z (AirportData.flight_count g)
                 <= in_minutes (end_time - start_time)%Z)%Q).
  { apply Qle_shift_div_r; [exact Hn |]. nra. }
  split; [| split].
  - rewrite Havg. apply round2_nonneg. exact Hq0.
  - rewrite Havg.
    pose proof (round2_near_lemma
                  (minutes_sum start_time end_time (filter has_aircraft fl)
                   / inject_Z (AirportData.flight_count g))) as [_ Hr].
    lra.
  - apply Forall_forall. intros t Ht.
    pose proof (proj1 (Forall_forall _ _) Hts t Ht) as Hval. simpl in Hval.
    rewrite Hval. apply round2_nonneg.
    apply (minutes_sum_bounds start_time end_time _ Hw').
Qed.

Lemma report_figures_bounded_witness :
  exists data,
    Forall (fun g =>
              (0 <= AirportData.average_flight_time g)%Q
              /\ (AirportData.average_flight_time g
                  <= in_minutes (at_time "2030-01-01T18:00:00"
                                 - at_time "2030-01-01T12:00:00")%Z
                     + (1 # 200))%Q
              /\ Forall (fun t => (0 <= AircraftMinutes.in_flight_minutes t)%Q)
                        (AirportData.aircraft_flight_times g))
           data
    /\ List.length data = 2%nat.
Proof.
  eexists. split.
  - eapply (@report_figures_bounded iso_basic_format sample_window
              (begin sample_db) (at_time "2030-01-01T12:00:00")
              (at_time "2030-01-01T18:00:00") _ _ _ eq_refl).
    reflexivity.
  - reflexivity.
Defined.


Lemma read_only_request_leaves_session_witness :
  snd (run (@view_function iso_basic_format sample_now
              (GetFlights (FlightArgs.make (Some "kjfk") None None None)))
           (begin sample_db))
  = begin sample_db.
Proof.
  apply (@read_only_request_leaves_session iso_basic_format). reflexivity.
Defined.
